(** * talkjs-backend-tool: the token minter, the upstream client and the routes

    A shallow embedding of [src/talkjsService.js] and [src/index.js].
    JavaScript values are an inductive type, exceptions are an explicit
    [outcome], the upstream platform and the clock are an explicit
    [upstream] record, and every operation returns, next to its result, the
    list of HTTP requests it sent. *)

From Stdlib Require Import ZArith List String Ascii Bool Arith Lia DecimalString.
Import ListNotations.
Set Warnings "-register-all".
Open Scope list_scope.
Open Scope string_scope.

(** ** JavaScript values *)

Module JS.

(** Numbers are restricted to the safe integers (magnitude below 2^53), on
    which [Number] arithmetic and conversion to text are those of the
    integers; strings are byte strings, taken to be ASCII text wherever their
    characters are counted or told apart; objects are key/value lists with
    unique keys, in insertion order. *)
Inductive jsval : Type :=
| VUndefined
| VNull
| VBool (b : bool)
| VNum (n : Z)
| VStr (s : string)
| VArr (l : list jsval)
| VObj (fields : list (string * jsval)).

(** [ToBoolean]. *)
Definition truthy (v : jsval) : bool :=
  match v with
  | VUndefined | VNull => false
  | VBool b => b
  | VNum n => negb (n =? 0)%Z
  | VStr s => negb (s =? "")
  | VArr _ | VObj _ => true
  end.

(** [a || b]. *)
Definition js_or (a b : jsval) : jsval := if truthy a then a else b.

(** A parameter default [x = d]: only [undefined] takes the default. *)
Definition default_param (v d : jsval) : jsval :=
  match v with VUndefined => d | _ => v end.

(** [v === s] for a string literal [s]. *)
Definition strict_eq_str (v : jsval) (s : string) : bool :=
  match v with VStr t => t =? s | _ => false end.

Definition string_of_Z (n : Z) : string := NilZero.string_of_int (Z.to_int n).

(** [String(v)], as a template literal [`${v}`] computes it (a number prints
    as its decimal numeral, which is what a safe integer prints as). *)
Fixpoint to_string (v : jsval) : string :=
  match v with
  | VUndefined => "undefined"
  | VNull => "null"
  | VBool true => "true"
  | VBool false => "false"
  | VNum n => string_of_Z n
  | VStr s => s
  | VArr l =>
      (fix join (l : list jsval) : string :=
         match l with
         | [] => ""
         | x :: r =>
             let sx := match x with
                       | VUndefined | VNull => ""
                       | _ => to_string x
                       end in
             match r with
             | [] => sx
             | _ :: _ => sx ++ "," ++ join r
             end
         end) l
  | VObj _ => "[object Object]"
  end.

Fixpoint obj_get (fields : list (string * jsval)) (k : string) : jsval :=
  match fields with
  | [] => VUndefined
  | (k', v) :: r => if k' =? k then v else obj_get r k
  end.

(** [o[k] = v] on an object's field list. *)
Fixpoint obj_set (fields : list (string * jsval)) (k : string) (v : jsval)
  : list (string * jsval) :=
  match fields with
  | [] => [(k, v)]
  | (k', v') :: r =>
      if k' =? k then (k, v) :: r else (k', v') :: obj_set r k v
  end.

End JS.
Import JS.

(** ** Exceptions and HTTP *)

Module Http.
Record http_response : Type := mkResponse {
  status : Z;
  data : jsval
}.
End Http.
Import Http.

(** A thrown [Error]; [response] is set on the errors the HTTP client raises
    for an answer outside 2xx ([error.response]). *)
Record js_error : Type := mkError {
  message : string;
  response : option http_response
}.

Definition Error (msg : string) : js_error := mkError msg None.

(** [error.response?.status] and [error.response?.data]. *)
Definition response_status (e : js_error) : jsval :=
  match response e with Some r => VNum (status r) | None => VUndefined end.

Definition response_data (e : js_error) : jsval :=
  match response e with Some r => Http.data r | None => VUndefined end.

Inductive outcome (A : Type) : Type :=
| Return (a : A)
| Throw (e : js_error).
Arguments Return {A} a.
Arguments Throw {A} e.

(** [x.k]: a [TypeError] on [undefined] and [null], the member on an object,
    [undefined] on the other values (their built-in members are not modelled). *)
Definition get_prop (v : jsval) (k : string) : outcome jsval :=
  match v with
  | VUndefined | VNull =>
      Throw (Error ("Cannot read properties of " ++ to_string v
                    ++ " (reading '" ++ k ++ "')"))
  | VObj fields => Return (obj_get fields k)
  | _ => Return VUndefined
  end.

(** ** Configuration: the four environment variables *)

Record config : Type := mkConfig {
  APP_ID_DEV : option string;
  SECRET_KEY_DEV : option string;
  APP_ID_PRO : option string;
  SECRET_KEY_PRO : option string
}.

(** A [process.env] member: a string, or [undefined] when unset. *)
Definition env_val (v : option string) : jsval :=
  match v with Some s => VStr s | None => VUndefined end.

(** ** The [jsonwebtoken] library, as far as [generateToken] uses it *)

Module Jwt.

(** The claims of a token: the members of the payload handed to [sign], and
    the registered claims that [sign] adds. *)
Record claims : Type := mkClaims {
  custom : list (string * jsval);
  iat : Z;
  exp : Z;
  iss : string
}.

Definition tokenType (c : claims) : jsval := obj_get (custom c) "tokenType".

(** A signed token: its claims, the algorithm and the key it is signed with. *)
Record token : Type := mkToken {
  alg : string;
  payload : claims;
  key : string
}.

Definition digit_of (c : ascii) : option Z :=
  let n := Z.of_nat (nat_of_ascii c) in
  if ((48 <=? n) && (n <=? 57))%Z then Some (n - 48)%Z else None.

(** Leading decimal digits of [s] and what follows them. *)
Fixpoint read_digits (s : string) (acc : option Z) : option Z * string :=
  match s with
  | EmptyString => (acc, s)
  | String c r =>
      match digit_of c with
      | Some d =>
          read_digits r (Some (10 * match acc with Some a => a | None => 0 end + d)%Z)
      | None => (acc, s)
      end
  end.

(** [ms(str)]: whole numbers with the short unit names. *)
Definition ms (s : string) : option Z :=
  match read_digits s None with
  | (Some n, u) =>
      if u =? "ms" then Some n
      else if u =? "" then Some n
      else if u =? "s" then Some (n * 1000)%Z
      else if u =? "m" then Some (n * 60000)%Z
      else if u =? "h" then Some (n * 3600000)%Z
      else if u =? "d" then Some (n * 86400000)%Z
      else if u =? "w" then Some (n * 604800000)%Z
      else None
  | (None, _) => None
  end.

(** [timespan(time, iat)] for a string [time]: seconds since the epoch. *)
Definition timespan (time : string) (iat : Z) : option Z :=
  match ms time with
  | Some milliseconds => Some (iat + milliseconds / 1000)%Z
  | None => None
  end.

(** [jwt.sign(payload, secretOrPrivateKey, {issuer, expiresIn})] at the clock
    reading [now] (seconds), for an object [payload] that sets none of the
    registered claims itself. *)
Definition sign (payload : list (string * jsval))
    (secretOrPrivateKey issuer : jsval)
    (expiresIn : string) (now : Z) : outcome token :=
  match secretOrPrivateKey with
  | VStr k =>
      if k =? "" then Throw (Error "secretOrPrivateKey must have a value")
      else
        match issuer with
        | VStr i =>
            match timespan expiresIn now with
            | Some e => Return (mkToken "HS256" (mkClaims payload now e i) k)
            | None =>
                Throw (Error "expiresIn should be a number of seconds or string representing a timespan")
            end
        | _ => Throw (Error "issuer must be a string")
        end
  | _ => Throw (Error "secretOrPrivateKey must have a value")
  end.

End Jwt.
Import Jwt.

(** ** [talkjsService.js] *)

(** The branch at the head of [generateToken]. *)
Definition select_credentials (cfg : config) (keyType : jsval) : jsval * jsval :=
  if strict_eq_str keyType "prod"
  then (env_val (APP_ID_PRO cfg), env_val (SECRET_KEY_PRO cfg))
  else (env_val (APP_ID_DEV cfg), env_val (SECRET_KEY_DEV cfg)).

Definition generateToken (cfg : config) (now : Z) (keyType : jsval)
  : outcome token :=
  let keyType := default_param keyType (VStr "dev") in
  let '(appId, secretKey) := select_credentials cfg keyType in
  if negb (truthy appId) || negb (truthy secretKey) then
    Throw (Error ("API keys not configured for " ++ to_string keyType
                  ++ " environment."))
  else
    Jwt.sign [("tokenType", VStr "app")] secretKey appId "30s" now.

(** An outbound HTTP request, as handed to the HTTP client. *)
Record request : Type := mkRequest {
  req_method : jsval;
  req_url : string;
  req_bearer : token;        (* Authorization: Bearer <token> *)
  req_content_type : string;
  req_data : jsval
}.

(** What the HTTP client settles on for a request: the answer it ends up
    with once it has followed the redirects it follows by itself, or none
    (transport failure with the client's message). Redirects as such are not
    modelled: an answer with a 3xx status stands for one the client did not
    follow. *)
Inductive wire : Type :=
| Reply (r : http_response)
| NoReply (msg : string).

(** The world outside the process: [clock k] is the time in seconds when the
    operation mints its [k]-th token, [answer k req] what the platform
    answers to the operation's [k]-th request [req] (counting from 0). *)
Record upstream : Type := mkUpstream {
  clock : nat -> Z;
  answer : nat -> request -> wire
}.

(** The HTTP client, on the answer it settles on: it resolves on 2xx and
    rejects otherwise, with the answer attached to the error. *)
Definition axios (up : upstream) (k : nat) (req : request)
  : outcome http_response :=
  match answer up k req with
  | Reply r =>
      if ((200 <=? status r) && (status r <? 300))%Z then Return r
      else Throw (mkError ("Request failed with status code "
                           ++ string_of_Z (status r)) (Some r))
  | NoReply msg => Throw (Error msg)
  end.

Definition base_url : string := "https://api.talkjs.com/v1/".

(** [(keyType === 'prod') ? APP_ID_PRO : APP_ID_DEV]. *)
Definition appIdToUse (cfg : config) (keyType : jsval) : jsval :=
  if strict_eq_str keyType "prod" then env_val (APP_ID_PRO cfg)
  else env_val (APP_ID_DEV cfg).

(** [callTalkJSApi(endpoint, method = 'GET', keyType = 'dev', data = null)],
    issued as the operation's [k]-th request. The second component lists the
    requests sent. *)
Definition callTalkJSApi (cfg : config) (up : upstream) (k : nat)
    (endpoint : string) (method keyType data : jsval)
  : outcome jsval * list request :=
  let method := default_param method (VStr "GET") in
  let keyType := default_param keyType (VStr "dev") in
  let data := default_param data VNull in
  match generateToken cfg (clock up k) keyType with
  | Throw e => (Throw e, [])
  | Return token =>
      let url := base_url ++ to_string (appIdToUse cfg keyType) ++ endpoint in
      let req := mkRequest method url token "application/json" data in
      match axios up k req with
      | Return response => (Return (Http.data response), [req])
      | Throw error => (Throw error, [req])
      end
  end.

(** The URL that [fetchUsersPage] builds. *)
Definition users_url (cfg : config) (keyType : jsval) (limit : Z)
    (startingAfter : jsval) : string :=
  let url := base_url ++ to_string (appIdToUse cfg keyType)
             ++ "/users?limit=" ++ string_of_Z limit in
  if truthy startingAfter
  then url ++ "&startingAfter=" ++ to_string startingAfter
  else url.

(** [fetchUsersPage(limit, startingAfter = null, keyType = 'dev')], issued as
    the operation's [k]-th request. *)
Definition fetchUsersPage (cfg : config) (up : upstream) (k : nat)
    (limit : Z) (startingAfter keyType : jsval)
  : outcome jsval * list request :=
  let startingAfter := default_param startingAfter VNull in
  let keyType := default_param keyType (VStr "dev") in
  match generateToken cfg (clock up k) keyType with
  | Throw e => (Throw e, [])
  | Return token =>
      let url := users_url cfg keyType limit startingAfter in
      let req := mkRequest (VStr "GET") url token "application/json" VUndefined in
      match axios up k req with
      | Throw error => (Throw error, [req])
      | Return response =>
          if (status response =? 200)%Z then
            (* const users = response.data.data; then `${users.length}` *)
            match get_prop (data response) "data" with
            | Throw error => (Throw error, [req])
            | Return users =>
                match get_prop users "length" with
                | Throw error => (Throw error, [req])
                | Return _ => (Return users, [req])
                end
            end
          else
            (Throw (Error ("Failed to fetch users page, status: "
                           ++ string_of_Z (status response))), [req])
      end
  end.

(** The elements that [v.length > 0] and [push(...v)] see in [v]: those of an
    array, the characters of a string (ASCII text); nothing is pushed from
    any other value. *)
Definition records_of (v : jsval) : list jsval :=
  match v with
  | VArr l => l
  | VStr s => map (fun c => VStr (String c EmptyString)) (list_ascii_of_string s)
  | _ => []
  end.

(** The variables of [fetchAllUsers], and the requests sent so far. *)
Record loop_state : Type := mkLoop {
  allUsers : list jsval;
  startingAfter : jsval;
  sent : list request
}.

Definition limit : Z := 100.

(** One pass through the body of [while (morePages)]: the new state and the
    new value of [morePages]. *)
Definition loop_body (cfg : config) (up : upstream) (keyType : jsval)
    (st : loop_state) : loop_state * bool :=
  match fetchUsersPage cfg up (List.length (sent st)) limit (startingAfter st) keyType with
  | (Throw _, reqs) =>
      (mkLoop (allUsers st) (startingAfter st) (sent st ++ reqs)%list, false)
  | (Return currentPageUsers, reqs) =>
      let page := records_of currentPageUsers in
      if (0 <? Z.of_nat (List.length page))%Z then
        let allUsers' := (allUsers st ++ page)%list in
        match get_prop (nth (List.length page - 1) page VUndefined) "id" with
        | Throw _ =>
            (mkLoop allUsers' (startingAfter st) (sent st ++ reqs)%list, false)
        | Return id =>
            (mkLoop allUsers' id (sent st ++ reqs)%list,
             negb (Z.of_nat (List.length page) <? limit)%Z)
        end
      else
        (mkLoop (allUsers st) (startingAfter st) (sent st ++ reqs)%list, false)
  end.

(** [while (morePages) { ... }], run for at most [fuel] passes; [None] when
    the loop is still running after them. *)
Fixpoint while_morePages (fuel : nat) (cfg : config) (up : upstream)
    (keyType : jsval) (st : loop_state) : option loop_state :=
  match fuel with
  | O => None
  | S fuel' =>
      let '(st', morePages) := loop_body cfg up keyType st in
      if morePages then while_morePages fuel' cfg up keyType st'
      else Some st'
  end.

(** [fetchAllUsers(keyType = 'dev')]: the users collected and the requests
    sent. It never throws: every exception of the body is caught. *)
Definition fetchAllUsers (fuel : nat) (cfg : config) (up : upstream)
    (keyType : jsval) : option (list jsval * list request) :=
  let keyType := default_param keyType (VStr "dev") in
  match while_morePages fuel cfg up keyType (mkLoop [] VNull []) with
  | Some st => Some (allUsers st, sent st)
  | None => None
  end.

(** ** [index.js]: the routes *)

Definition bind {A B : Type} (m : outcome A) (f : A -> outcome B) : outcome B :=
  match m with
  | Return a => f a
  | Throw e => Throw e
  end.

Notation "x <- m ;; k" := (bind m (fun x => k))
  (at level 61, m at next level, right associativity).

(** [arr.map(f)] where [f] may throw; a [TypeError] when [arr] is no array. *)
Fixpoint map_outcome (f : jsval -> outcome jsval) (l : list jsval)
  : outcome (list jsval) :=
  match l with
  | [] => Return []
  | x :: r => y <- f x ;; ys <- map_outcome f r ;; Return (y :: ys)
  end.

Definition js_map (f : jsval -> outcome jsval) (arr : jsval) : outcome jsval :=
  match arr with
  | VArr l => ys <- map_outcome f l ;; Return (VArr ys)
  | _ => Throw (Error "(data.data || []).map is not a function")
  end.

(** The members of an array or of the characters of a string, keyed by
    their index. *)
Definition indexed (l : list jsval) : list (string * jsval) :=
  combine (map (fun i => string_of_Z (Z.of_nat i)) (seq 0 (List.length l))) l.

(** The own enumerable members that [{...v}] copies: those of an object, the
    indexed elements of an array and the indexed characters of a string;
    none from [null], [undefined], booleans and numbers. *)
Definition spread (v : jsval) : list (string * jsval) :=
  match v with
  | VObj fields => fields
  | VArr l => indexed l
  | VStr s =>
      indexed (map (fun c => VStr (String c EmptyString)) (list_ascii_of_string s))
  | _ => []
  end.

(** [typeof v === 'object']. *)
Definition typeof_object (v : jsval) : bool :=
  match v with
  | VNull | VArr _ | VObj _ => true
  | _ => false
  end.

(** [error.response?.status || d], as a status code. *)
Definition status_or (error : js_error) (d : Z) : Z :=
  match js_or (response_status error) (VNum d) with
  | VNum n => n
  | _ => d
  end.

(** [error.response?.status === 404]. *)
Definition status_is_404 (error : js_error) : bool :=
  match response_status error with
  | VNum n => (n =? 404)%Z
  | _ => false
  end.

(** [{ error: error.message, details: error.response?.data }]. *)
Definition error_details (error : js_error) : jsval :=
  VObj [("error", VStr (message error)); ("details", response_data error)].

(** The inbound request as the framework presents it. *)
Record express_request : Type := mkReq {
  params : list (string * jsval);
  query : list (string * jsval);
  body : list (string * jsval)
}.

(** What the handler answers: the status ([200] unless set) and the value
    handed to [res.json]. *)
Record express_response : Type := mkRes {
  res_status : Z;
  res_body : jsval
}.

Definition catching (try : outcome express_response)
    (catch : js_error -> express_response) : express_response :=
  match try with
  | Return res => res
  | Throw error => catch error
  end.

Section Routes.

(** The constructors of [./models/message] and [./models/conversation], which
    the handlers import. *)
Variable Message : jsval -> outcome jsval.
Variable Conversation : jsval -> outcome jsval.

Variable cfg : config.
Variable up : upstream.

(** [conv.lastMessage ? new Message(conv.lastMessage) : null], then
    [new Conversation({ ...conv, lastMessage })]. *)
Definition to_conversation (conv : jsval) : outcome jsval :=
  lm <- get_prop conv "lastMessage" ;;
  lastMessage <- (if truthy lm then Message lm else Return VNull) ;;
  Conversation (VObj (obj_set (spread conv) "lastMessage" lastMessage)).

(** [GET /conversations] *)
Definition get_conversations (req : express_request)
  : express_response * list request :=
  let '(r, sent) :=
    callTalkJSApi cfg up 0 "/conversations" VUndefined VUndefined VUndefined in
  (catching
     (data <- r ;;
      d <- get_prop data "data" ;;
      conversations <- js_map to_conversation (js_or d (VArr [])) ;;
      Return (mkRes 200 (VObj [("data", conversations)])))
     (fun error => mkRes (status_or error 500) (error_details error)),
   sent).

Definition participant_endpoint (conversationId userId : jsval) : string :=
  "/conversations/" ++ to_string conversationId
  ++ "/participants/" ++ to_string userId.

(** [PUT /conversations/:conversationId/participants/:userId] *)
Definition put_participant (req : express_request)
  : express_response * list request :=
  let conversationId := obj_get (params req) "conversationId" in
  let userId := obj_get (params req) "userId" in
  let access := obj_get (body req) "access" in
  let notify := obj_get (body req) "notify" in
  let keyType := obj_get (query req) "keyType" in
  let '(r, sent) :=
    callTalkJSApi cfg up 0 (participant_endpoint conversationId userId)
      (VStr "PUT") keyType (VObj [("access", access); ("notify", notify)]) in
  (catching
     (talkjsResData <- r ;; Return (mkRes 200 talkjsResData))
     (fun error => mkRes (status_or error 500) (error_details error)),
   sent).

(** [DELETE /conversations/:conversationId/participants/:userId] *)
Definition delete_participant (req : express_request)
  : express_response * list request :=
  let conversationId := obj_get (params req) "conversationId" in
  let userId := obj_get (params req) "userId" in
  let keyType := obj_get (query req) "keyType" in
  let '(r, sent) :=
    callTalkJSApi cfg up 0 (participant_endpoint conversationId userId)
      (VStr "DELETE") keyType VUndefined in
  (catching
     (talkjsResData <- r ;; Return (mkRes 200 talkjsResData))
     (fun error => mkRes (status_or error 500) (error_details error)),
   sent).

(** [GET /conversations/:conversationId] *)
Definition get_conversation (req : express_request)
  : express_response * list request :=
  let conversationId := obj_get (params req) "conversationId" in
  let keyType := obj_get (query req) "keyType" in
  let '(r, sent) :=
    callTalkJSApi cfg up 0 ("/conversations/" ++ to_string conversationId)
      (VStr "GET") keyType VUndefined in
  (catching
     (conversationData <- r ;;
      conversation <-
        (if truthy conversationData && typeof_object conversationData
         then to_conversation conversationData
         else Return VNull) ;;
      if truthy conversation
      then Return (mkRes 200 (VObj [("data", conversation)]))
      else Return (mkRes 404
             (VObj [("error", VStr "Conversación no encontrada o datos inválidos.")])))
     (fun error =>
        if status_is_404 error
        then mkRes 404
               (VObj [("error", VStr ("Conversación con ID "
                                      ++ to_string conversationId
                                      ++ " no encontrada."))])
        else mkRes 500 (error_details error)),
   sent).

(** [GET /users/:userId/conversations] *)
Definition get_user_conversations (req : express_request)
  : express_response * list request :=
  let userId := obj_get (params req) "userId" in
  let keyType := obj_get (query req) "keyType" in
  let '(r, sent) :=
    callTalkJSApi cfg up 0 ("/users/" ++ to_string userId ++ "/conversations")
      (VStr "GET") keyType VUndefined in
  (catching
     (data <- r ;;
      d <- get_prop data "data" ;;
      let conversationsData := js_or d (VArr []) in
      Return (mkRes 200 (VObj [("conversations", conversationsData)])))
     (fun error =>
        if status_is_404 error
        then mkRes 404
               (VObj [("error", VStr ("Conversations for user with ID "
                                      ++ to_string userId ++ " not found."))])
        else mkRes (status_or error 500) (error_details error)),
   sent).

(** [GET /v1/:appId/users/:userId] *)
Definition get_user (req : express_request)
  : express_response * list request :=
  let appId := obj_get (params req) "appId" in
  let userId := obj_get (params req) "userId" in
  let '(r, sent) :=
    callTalkJSApi cfg up 0 ("/users/" ++ to_string userId)
      (VStr "GET") appId VUndefined in
  (catching
     (userData <- r ;; Return (mkRes 200 userData))
     (fun error =>
        if truthy (response_status error)
        then mkRes (status_or error 500) (error_details error)
        else mkRes 500 (VObj [("error", VStr (message error))])),
   sent).

(** [GET /users]. [fetchAllUsers] throws nothing, so the handler's [catch]
    has nothing to catch. *)
Definition get_users (fuel : nat) (req : express_request)
  : option (express_response * list request) :=
  let keyType := js_or (obj_get (query req) "keyType") (VStr "dev") in
  match fetchAllUsers fuel cfg up keyType with
  | Some (allUsers, sent) =>
      Some (mkRes 200 (VObj [("users", VArr allUsers)]), sent)
  | None => None
  end.

End Routes.

(** ** Vocabulary of the properties, and concrete inputs *)

(** The credential pair of the environment that [keyType] names, as the
    process environment holds it: the prod pair for ['prod'], the dev pair
    for everything else. *)
Definition environment_credentials (cfg : config) (keyType : jsval)
  : option string * option string :=
  match keyType with
  | VStr "prod" => (APP_ID_PRO cfg, SECRET_KEY_PRO cfg)
  | _ => (APP_ID_DEV cfg, SECRET_KEY_DEV cfg)
  end.

(** An environment variable that is unset or set to the empty string. *)
Definition unset (v : option string) : Prop := v = None \/ v = Some "".

Definition config_error (keyType : jsval) : js_error :=
  Error ("API keys not configured for "
         ++ to_string (default_param keyType (VStr "dev")) ++ " environment.").

Definition no_credentials : config := mkConfig None None None None.

Definition both_configured : config :=
  mkConfig (Some "tDevApp") (Some "sk_dev_1") (Some "tProdApp") (Some "sk_prod_1").

(** The token minted for [prod] under [both_configured] at 1700000000. *)
Definition prod_token : token :=
  mkToken "HS256"
    (mkClaims [("tokenType", VStr "app")] 1700000000 1700000030 "tProdApp")
    "sk_prod_1".

(** Both credentials of the environment that [keyType] selects are set. *)
Definition configured (cfg : config) (keyType : jsval) : Prop :=
  let creds := environment_credentials cfg (default_param keyType (VStr "dev")) in
  ~ (unset (fst creds) \/ unset (snd creds)).

(** The request that [fetchUsersPage] sends once it holds the token [tok]. *)
Definition users_request (cfg : config) (keyType : jsval) (limit : Z)
    (startingAfter : jsval) (tok : token) : request :=
  mkRequest (VStr "GET")
    (users_url cfg (default_param keyType (VStr "dev")) limit
       (default_param startingAfter VNull))
    tok "application/json" VUndefined.

(** An answer that keeps the loop going: status 200 with at least [limit]
    records under [data]. Short and empty pages, answers with another status,
    bodies without records and transport failures are not full pages. *)
Definition is_full_page (w : wire) : bool :=
  match w with
  | Reply r =>
      (status r =? 200)%Z
      && match data r with
         | VObj fields =>
             (limit <=? Z.of_nat (List.length (records_of (obj_get fields "data"))))%Z
         | _ => false
         end
  | NoReply _ => false
  end.

(** A well-formed page of users, as the platform sends it. *)
Definition page_reply (users : list jsval) : wire :=
  Reply (mkResponse 200 (VObj [("data", VArr users)])).

Ltac break_match :=
  match goal with
  | |- context [match ?x with _ => _ end] => destruct x eqn:?
  | H : context [match ?x with _ => _ end] |- _ => destruct x eqn:?
  end.

(** The page request of the pass that starts in [st]. *)
Definition page_request (cfg : config) (up : upstream) (keyType : jsval)
    (st : loop_state) : outcome jsval * list request :=
  fetchUsersPage cfg up (List.length (sent st)) limit (startingAfter st) keyType.

Definition user (n : nat) : jsval :=
  VObj [("id", VStr ("user_" ++ string_of_Z (Z.of_nat n)));
        ("role", VStr "default")].

Definition users_from (start count : nat) : list jsval :=
  map user (seq start count).

(** An upstream that plays back a list of answers, whatever is asked, and
    refuses the connection once the list is used up. *)
Definition scripted (answers : list wire) : upstream :=
  mkUpstream (fun k => 1700000000 + Z.of_nat k)%Z
             (fun k _ => nth k answers (NoReply "connect ECONNREFUSED")).

Definition three_pages : upstream :=
  scripted [page_reply (users_from 0 100);
            page_reply (users_from 100 100);
            page_reply (users_from 200 37)].

Definition oversized_page : upstream :=
  scripted [page_reply (users_from 0 101); page_reply (users_from 101 1)].

Definition second_page_fails : upstream :=
  scripted [page_reply (users_from 0 100);
            Reply (mkResponse 503 (VObj [("errorCode", VStr "UNAVAILABLE")]))].

(** The request [r] is made with the credentials of the environment that the
    selector [sel] names ([dev] when [sel] is absent): its token is issued by
    that environment's application identifier and signed with its secret,
    and its URL is rooted at that application identifier. *)
Definition uses_credentials_of (cfg : config) (sel : jsval) (r : request) : Prop :=
  let creds := environment_credentials cfg (default_param sel (VStr "dev")) in
  fst creds = Some (iss (payload (req_bearer r)))
  /\ snd creds = Some (key (req_bearer r))
  /\ exists endpoint,
       req_url r = base_url ++ iss (payload (req_bearer r)) ++ endpoint.

(** What a route's upstream traffic [sent] must satisfy to be served by the
    environment that [sel] names. *)
Definition served_by (cfg : config) (sel : jsval) (sent : list request) : Prop :=
  Forall (uses_credentials_of cfg sel) sent
  /\ (configured cfg sel -> 1 <= List.length sent).

Definition plain_model (v : jsval) : outcome jsval := Return v.

(** A request for [GET /conversations/c42?keyType=prod]. *)
Definition conversation_request : express_request :=
  mkReq [("conversationId", VStr "c42")] [("keyType", VStr "prod")] [].

Definition conversation_missing : upstream :=
  scripted [Reply (mkResponse 404 (VObj [("errorCode", VStr "NOT_FOUND")]))].

Definition participant_request : express_request :=
  mkReq [("conversationId", VStr "c1"); ("userId", VStr "u1")]
        []
        [("access", VStr "ReadWrite"); ("notify", VBool true);
         ("role", VStr "admin")].

Definition participant_updated : upstream :=
  scripted [Reply (mkResponse 200 (VObj [("ok", VBool true)]))].

(** A user record as the platform lists it: an object whose [id] is a
    string. *)
Definition user_record (v : jsval) : Prop :=
  exists fields s, v = VObj fields /\ obj_get fields "id" = VStr s.

(** The [id] of the last record of a page. *)
Definition last_id (page : list jsval) : jsval :=
  match get_prop (nth (List.length page - 1) page VUndefined) "id" with
  | Return id => id
  | Throw _ => VUndefined
  end.

(** The upstream keeps to the contract of the users listing: what it sends
    under [data] with status 200 is a list of user records, never more than
    [limit] of them. *)
Definition honours_limit (up : upstream) : Prop :=
  forall k req resp users,
    answer up k req = Reply resp ->
    status resp = 200%Z ->
    get_prop (data resp) "data" = Return users ->
    Forall user_record (records_of users)
    /\ (Z.of_nat (List.length (records_of users)) <= limit)%Z.

(** Request [r'] follows request [r], the [k]-th of the run: [r] was
    answered with a page of exactly 100 records, and [r'] asks for what
    comes after the [id] of the last of them. *)
Definition follows_full_page (cfg : config) (up : upstream) (kt : jsval)
    (k : nat) (r r' : request) : Prop :=
  exists resp users,
    answer up k r = Reply resp
    /\ status resp = 200%Z
    /\ get_prop (data resp) "data" = Return users
    /\ List.length (records_of users) = 100
    /\ req_url r' = users_url cfg kt limit (last_id (records_of users)).

(** A request of no consequence, where one is needed to ask the upstream
    model what it answers whatever it is asked. *)
Definition any_request : request :=
  mkRequest (VStr "GET") "" (mkToken "HS256" (mkClaims [] 0 0 "") "")
            "application/json" VUndefined.

(** Every request of a run but the first follows a full page. *)
Definition pairs_follow (cfg : config) (up : upstream) (kt : jsval)
    (reqs : list request) : Prop :=
  forall k r r',
    nth_error reqs k = Some r -> nth_error reqs (S k) = Some r' ->
    follows_full_page cfg up kt k r r'.

(** While the loop goes on, its cursor is the last [id] of the full page
    that answered the request sent last. *)
Definition cursor_follows (up : upstream) (st : loop_state) : Prop :=
  forall k r,
    nth_error (sent st) k = Some r -> S k = List.length (sent st) ->
    exists resp users,
      answer up k r = Reply resp
      /\ status resp = 200%Z
      /\ get_prop (data resp) "data" = Return users
      /\ List.length (records_of users) = 100
      /\ startingAfter st = last_id (records_of users).

(** A page after which the loop goes on: at least [limit] records, the last
    of which has a readable [id]. *)
Definition full_page_of (page : list jsval) : Prop :=
  (limit <= Z.of_nat (List.length page))%Z
  /\ exists id,
       get_prop (nth (List.length page - 1) page VUndefined) "id" = Return id.

(** The request that [callTalkJSApi] sends once it holds the token [tok]. *)
Definition api_request (cfg : config) (endpoint : string)
    (method keyType data : jsval) (tok : token) : request :=
  mkRequest (default_param method (VStr "GET"))
    (base_url
     ++ to_string (appIdToUse cfg (default_param keyType (VStr "dev")))
     ++ endpoint)
    tok "application/json" (default_param data VNull).

(** An answer with a status in 200..299. *)
Definition is_2xx (resp : http_response) : bool :=
  ((200 <=? status resp) && (status resp <? 300))%Z.

(** An answer with a status in 300..399: a redirect, which the HTTP client
    may follow by itself instead of handing it on. *)
Definition is_redirect (resp : http_response) : bool :=
  ((300 <=? status resp) && (status resp <? 400))%Z.

(** An upstream that ignores the cursor and always answers with the same
    full page. *)
Definition endless_pages : upstream :=
  mkUpstream (fun k => 1700000000 + Z.of_nat k)%Z
             (fun _ _ => page_reply (users_from 0 100)).

Ltac solve_configured :=
  let H := fresh in intros [[H|H]|[H|H]]; discriminate.

(** The token minted for [dev] under [both_configured] for the [k]-th
    request of a [scripted] upstream. *)
Definition dev_token_at (k : nat) : token :=
  mkToken "HS256"
    (mkClaims [("tokenType", VStr "app")]
       (1700000000 + Z.of_nat k) (1700000000 + Z.of_nat k + 30) "tDevApp")%Z
    "sk_dev_1".

Definition no_content : upstream :=
  scripted [Reply (mkResponse 204 (VStr ""))].

Definition one_short_page : upstream :=
  scripted [page_reply (users_from 0 2)].

(** A full first page whose last record is [null]. *)
Definition null_tail_page : list jsval := (users_from 0 100 ++ [VNull])%list.

(** A full first page whose last record has no [id]. *)
Definition anonymous_tail_page : list jsval :=
  (users_from 0 99 ++ [VObj [("role", VStr "guest")]])%list.

(** An upstream that answers by the URL it is asked: the first page for the
    listing without cursor, an empty page after any cursor. *)
Definition anonymous_tail : upstream :=
  mkUpstream (fun k => 1700000000 + Z.of_nat k)%Z
    (fun _ r =>
       if req_url r =? "https://api.talkjs.com/v1/tDevApp/users?limit=100"
       then page_reply anonymous_tail_page
       else page_reply []).

(** What every page request of [fetchAllUsers] looks like: a GET without
    body, for the users listing of the selected application, carrying the
    token minted for this very request. *)
Definition page_request_shape (cfg : config) (up : upstream) (sel : jsval)
    (k : nat) (r : request) : Prop :=
  req_method r = VStr "GET"
  /\ req_data r = VUndefined
  /\ generateToken cfg (clock up k) sel = Return (req_bearer r)
  /\ iat (payload (req_bearer r)) = clock up k
  /\ exists cursor,
       req_url r = users_url cfg (default_param sel (VStr "dev")) limit cursor.

(** The error that the HTTP client raises for an answer outside 2xx. *)
Definition http_error (resp : http_response) : js_error :=
  mkError ("Request failed with status code " ++ string_of_Z (status resp))
          (Some resp).

(** What [callTalkJSApi] makes of the upstream's answer. *)
Definition call_result (w : wire) : outcome jsval :=
  match w with
  | Reply resp => if is_2xx resp then Return (Http.data resp)
                  else Throw (http_error resp)
  | NoReply msg => Throw (Error msg)
  end.

(** The answer of a route that relays an upstream failure: the upstream's
    status (500 should it be 0) and [{error, details}] with the upstream's
    body as details. *)
Definition relayed_error (resp : http_response) : express_response :=
  mkRes (if (status resp =? 0)%Z then 500%Z else status resp)
        (VObj [("error", VStr (message (http_error resp)));
               ("details", Http.data resp)]).

(** The answer of such a route to an error without upstream answer. *)
Definition plain_error (msg : string) : express_response :=
  mkRes 500 (VObj [("error", VStr msg); ("details", VUndefined)]).

Definition is_object (v : jsval) : Prop := exists fields, v = VObj fields.

Definition service_down : upstream :=
  scripted [Reply (mkResponse 503 (VObj [("errorCode", VStr "UNAVAILABLE")]))].

Definition user_request : express_request :=
  mkReq [("appId", VStr "prod"); ("userId", VStr "u7")] [] [].

Definition user_found : upstream :=
  scripted [Reply (mkResponse 200 (VObj [("id", VStr "u7"); ("name", VStr "Ana")]))].

Definition conversation_found : upstream :=
  scripted [Reply (mkResponse 200
              (VObj [("id", VStr "c42"); ("subject", VStr "Hola");
                     ("lastMessage", VObj [("id", VStr "m1"); ("text", VStr "hi")])]))].

Definition conversations_listed : upstream :=
  scripted [Reply (mkResponse 200
              (VObj [("data",
                      VArr [VObj [("id", VStr "c1");
                                  ("lastMessage", VObj [("id", VStr "m1")])];
                            VObj [("id", VStr "c2")]])]))].

(** A [Message] model that marks what it wraps. *)
Definition tagging_message (v : jsval) : outcome jsval :=
  Return (VObj [("message", v)]).

(** * Properties *)

(** ** The token minter *)

Lemma unset_dec (v : option string) : {unset v} + {~ unset v}.
Proof.
  destruct v as [s|].
  - destruct (string_dec s "") as [->|n].
    + left; right; reflexivity.
    + right; intros [H|H]; [discriminate | injection H as H; contradiction].
  - left; left; reflexivity.
Qed.

Lemma truthy_env_val (v : option string) :
  truthy (env_val v) = false <-> unset v.
Proof.
  destruct v as [s|]; simpl.
  - destruct (String.eqb_spec s "") as [->|n]; simpl; split; intro H.
    + right; reflexivity.
    + reflexivity.
    + discriminate.
    + destruct H as [H|H]; [discriminate | injection H as H; contradiction].
  - split; intro; [left|]; reflexivity.
Qed.

Lemma strict_eq_str_prod (v : jsval) :
  strict_eq_str v "prod" = true <-> v = VStr "prod".
Proof.
  destruct v; simpl; try (split; [discriminate | discriminate]).
  split; intro H.
  - apply String.eqb_eq in H; now subst.
  - injection H as ->; reflexivity.
Qed.

Lemma select_credentials_env (cfg : config) (keyType : jsval) :
  select_credentials cfg keyType =
  (env_val (fst (environment_credentials cfg keyType)),
   env_val (snd (environment_credentials cfg keyType))).
Proof.
  unfold select_credentials, environment_credentials.
  destruct (strict_eq_str keyType "prod") eqn:E.
  - apply strict_eq_str_prod in E; subst; reflexivity.
  - assert (N : keyType <> VStr "prod").
    { intro H; apply strict_eq_str_prod in H; congruence. }
    destruct keyType as [| | | |s| |]; try reflexivity.
    destruct (string_dec s "prod") as [->|n]; [congruence|].
    destruct s as [|a0 s0]; [reflexivity|].
    simpl in E.
    repeat (match goal with
            | |- context [match ?x with _ => _ end] => destruct x; try reflexivity
            end); simpl in E; discriminate.
Qed.

Lemma timespan_30s (now : Z) : timespan "30s" now = Some (now + 30)%Z.
Proof. reflexivity. Qed.

(** [generateToken] in closed form. *)
Lemma generateToken_cases (cfg : config) (now : Z) (keyType : jsval) :
  let kt := default_param keyType (VStr "dev") in
  match environment_credentials cfg kt with
  | (Some appId, Some secretKey) =>
      (appId <> "" /\ secretKey <> "" /\
       generateToken cfg now keyType =
       Return (mkToken "HS256"
                 (mkClaims [("tokenType", VStr "app")] now (now + 30) appId)
                 secretKey))
      \/ ((appId = "" \/ secretKey = "") /\
          generateToken cfg now keyType = Throw (config_error keyType))
  | _ => generateToken cfg now keyType = Throw (config_error keyType)
  end.
Proof.
  intro kt. unfold generateToken. fold kt.
  rewrite select_credentials_env.
  destruct (environment_credentials cfg kt) as [[a|] [s|]]; simpl;
    try reflexivity.
  - destruct (String.eqb_spec a "") as [->|na]; simpl.
    + right; split; [left|]; reflexivity.
    + destruct (String.eqb_spec s "") as [->|ns]; simpl.
      * right; split; [right|]; reflexivity.
      * left. split; [assumption | split; [assumption | reflexivity]].
  - destruct (a =? ""); reflexivity.
Qed.

Lemma default_param_idem (v d : jsval) :
  d <> VUndefined -> default_param (default_param v d) d = default_param v d.
Proof. intro H. destruct v; simpl; try reflexivity. destruct d; simpl; congruence. Qed.

Lemma generateToken_default (cfg : config) (now : Z) (keyType : jsval) :
  generateToken cfg now (default_param keyType (VStr "dev")) =
  generateToken cfg now keyType.
Proof.
  unfold generateToken. rewrite default_param_idem by discriminate. reflexivity.
Qed.

Lemma not_prod_default (keyType : jsval) :
  keyType <> VStr "prod" ->
  strict_eq_str (default_param keyType (VStr "dev")) "prod" = false.
Proof.
  intro H. destruct (strict_eq_str _ "prod") eqn:E; [|reflexivity].
  apply strict_eq_str_prod in E. destruct keyType; simpl in E; congruence.
Qed.

(** Outside ['prod'], [generateToken] is the dev minting, up to the key type
    named in the error message. *)
Lemma generateToken_not_prod (cfg : config) (now : Z) (keyType : jsval) :
  keyType <> VStr "prod" ->
  generateToken cfg now keyType =
  if negb (truthy (env_val (APP_ID_DEV cfg)))
     || negb (truthy (env_val (SECRET_KEY_DEV cfg)))
  then Throw (config_error keyType)
  else Jwt.sign [("tokenType", VStr "app")] (env_val (SECRET_KEY_DEV cfg))
                (env_val (APP_ID_DEV cfg)) "30s" now.
Proof.
  intro H. unfold generateToken, select_credentials.
  rewrite (not_prod_default _ H). reflexivity.
Qed.

(** C1, as stated, fails: with the dev credentials missing, the key type
    [staging] (neither [dev] nor [prod]) raises an error that differs from
    the one [dev] raises, since the message names the key type. *)
Lemma generateToken_staging_error_differs :
  VStr "staging" <> VStr "dev" /\ VStr "staging" <> VStr "prod" /\
  generateToken no_credentials 0 (VStr "staging")
  = Throw (Error "API keys not configured for staging environment.") /\
  generateToken no_credentials 0 (VStr "dev")
  = Throw (Error "API keys not configured for dev environment.") /\
  generateToken no_credentials 0 (VStr "staging")
  <> generateToken no_credentials 0 (VStr "dev").
Proof.
  repeat split; try discriminate.
Qed.

(** C1 (amended): for every key type other than ['prod'], absent included,
    the dev credential pair is selected, the token minted is the one minted
    for ['dev'], minting fails in exactly the same configurations, and
    [callTalkJSApi] sends the same request (same URL, same token). When the
    credentials are missing both fail with the configuration error, each
    naming the key type it was given, and nothing is sent; for an absent key
    type the two behaviours are identical. *)
Theorem keyType_fallback_is_dev (cfg : config) (now : Z) (keyType : jsval) :
  keyType <> VStr "prod" ->
  let kt := default_param keyType (VStr "dev") in
  select_credentials cfg kt = select_credentials cfg (VStr "dev")
  /\ appIdToUse cfg kt = appIdToUse cfg (VStr "dev")
  /\ (forall tok, generateToken cfg now keyType = Return tok
                  <-> generateToken cfg now (VStr "dev") = Return tok)
  /\ (generateToken cfg now keyType = generateToken cfg now (VStr "dev")
      \/ (generateToken cfg now keyType = Throw (config_error keyType)
          /\ generateToken cfg now (VStr "dev") = Throw (config_error (VStr "dev"))))
  /\ (forall up k endpoint method data,
        callTalkJSApi cfg up k endpoint method keyType data
        = callTalkJSApi cfg up k endpoint method (VStr "dev") data
        \/ (callTalkJSApi cfg up k endpoint method keyType data
            = (Throw (config_error keyType), [])
            /\ callTalkJSApi cfg up k endpoint method (VStr "dev") data
               = (Throw (config_error (VStr "dev")), [])))
  /\ (keyType = VUndefined ->
      generateToken cfg now keyType = generateToken cfg now (VStr "dev")
      /\ forall up k endpoint method data,
           callTalkJSApi cfg up k endpoint method keyType data
           = callTalkJSApi cfg up k endpoint method (VStr "dev") data).
Proof.
  intros H kt.
  assert (Hdev : VStr "dev" <> VStr "prod") by discriminate.
  assert (Hsel : select_credentials cfg kt = select_credentials cfg (VStr "dev")).
  { unfold select_credentials, kt. rewrite (not_prod_default _ H). reflexivity. }
  assert (Happ : appIdToUse cfg kt = appIdToUse cfg (VStr "dev")).
  { unfold appIdToUse, kt. rewrite (not_prod_default _ H). reflexivity. }
  assert (Hgen : forall t,
    generateToken cfg t keyType = generateToken cfg t (VStr "dev")
    \/ (generateToken cfg t keyType = Throw (config_error keyType)
        /\ generateToken cfg t (VStr "dev") = Throw (config_error (VStr "dev")))).
  { intro t. rewrite (generateToken_not_prod cfg t keyType H).
    rewrite (generateToken_not_prod cfg t (VStr "dev") Hdev).
    destruct (negb _ || negb _); [right; split; reflexivity | left; reflexivity]. }
  split; [exact Hsel|]. split; [exact Happ|].
  split.
  { intro tok. destruct (Hgen now) as [E|[E1 E2]].
    - rewrite E; tauto.
    - rewrite E1, E2; split; discriminate. }
  split; [exact (Hgen now)|].
  split.
  { intros up k endpoint method data. unfold callTalkJSApi.
    change (default_param (VStr "dev") (VStr "dev")) with (VStr "dev").
    rewrite (generateToken_default cfg (clock up k) keyType).
    fold kt. rewrite Happ.
    destruct (Hgen (clock up k)) as [E|[E1 E2]].
    - left. rewrite E. reflexivity.
    - right. rewrite E1, E2. split; reflexivity. }
  intros ->. split; [reflexivity|]. intros; reflexivity.
Qed.

Lemma keyType_fallback_is_dev_witness :
  let cfg := both_configured in
  let keyType := VStr "staging" in
  select_credentials cfg keyType = select_credentials cfg (VStr "dev")
  /\ forall tok, generateToken cfg 1700000000 keyType = Return tok
                 <-> generateToken cfg 1700000000 (VStr "dev") = Return tok.
Proof.
  intros cfg keyType.
  assert (N : keyType <> VStr "prod") by discriminate.
  pose proof (keyType_fallback_is_dev cfg 1700000000 keyType N) as H.
  split; [exact (proj1 H) | exact (proj1 (proj2 (proj2 H)))].
Defined.

(** C2: [generateToken] fails, with the configuration error, if and only if
    the application identifier or the secret of the selected environment is
    unset or empty; it then returns no token; and it returns a token whenever
    both are set and non-empty. *)
Theorem generateToken_fails_iff_unset (cfg : config) (now : Z) (keyType : jsval) :
  let creds := environment_credentials cfg (default_param keyType (VStr "dev")) in
  (generateToken cfg now keyType = Throw (config_error keyType)
   <-> unset (fst creds) \/ unset (snd creds))
  /\ ((exists e, generateToken cfg now keyType = Throw e)
      <-> unset (fst creds) \/ unset (snd creds))
  /\ ((exists tok, generateToken cfg now keyType = Return tok)
      <-> ~ (unset (fst creds) \/ unset (snd creds)))
  /\ (forall e tok, generateToken cfg now keyType = Throw e ->
                    generateToken cfg now keyType <> Return tok).
Proof.
  intro creds. pose proof (generateToken_cases cfg now keyType) as H.
  cbv zeta in H. fold creds in H.
  assert (U : (unset (fst creds) \/ unset (snd creds)) ->
              generateToken cfg now keyType = Throw (config_error keyType)).
  { destruct creds as [[a|] [s|]]; simpl in *; intros [[U|U]|[U|U]];
      try discriminate; try exact H.
    - injection U as ->. destruct H as [(na & _)|(_ & E)]; [congruence|exact E].
    - injection U as ->. destruct H as [(_ & ns & _)|(_ & E)]; [congruence|exact E]. }
  assert (R : ~ (unset (fst creds) \/ unset (snd creds)) ->
              exists tok, generateToken cfg now keyType = Return tok).
  { intro N. destruct creds as [[a|] [s|]]; simpl in *.
    - destruct H as [(_ & _ & E)|([->| ->] & _)].
      + eexists; exact E.
      + exfalso; apply N; left; right; reflexivity.
      + exfalso; apply N; right; right; reflexivity.
    - exfalso; apply N; right; left; reflexivity.
    - exfalso; apply N; left; left; reflexivity.
    - exfalso; apply N; left; left; reflexivity. }
  destruct (unset_dec (fst creds)) as [U1|N1];
    [|destruct (unset_dec (snd creds)) as [U2|N2]].
  - pose proof (U (or_introl U1)) as E. rewrite E.
    repeat split; try tauto; try discriminate.
    + intros _; eexists; reflexivity.
    + intros [tok Ht]; discriminate.
  - pose proof (U (or_intror U2)) as E. rewrite E.
    repeat split; try tauto; try discriminate.
    + intros _; eexists; reflexivity.
    + intros [tok Ht]; discriminate.
  - assert (N : ~ (unset (fst creds) \/ unset (snd creds))) by tauto.
    destruct (R N) as [tok E]. rewrite E.
    repeat split; try tauto; try discriminate.
    + intros [e He]; discriminate.
    + intros _; eexists; reflexivity.
Qed.

(** C3: a token that [generateToken] returns has the application identifier
    of the selected environment as issuer, the payload [tokenType = 'app'],
    is issued at mint time and expires exactly 30 seconds later; it is signed
    with the secret of that environment. *)
Theorem generateToken_claims (cfg : config) (now : Z) (keyType : jsval)
    (tok : token) :
  generateToken cfg now keyType = Return tok ->
  let creds := environment_credentials cfg (default_param keyType (VStr "dev")) in
  fst creds = Some (iss (payload tok))
  /\ tokenType (payload tok) = VStr "app"
  /\ iat (payload tok) = now
  /\ (exp (payload tok) - iat (payload tok) = 30)%Z
  /\ snd creds = Some (key tok).
Proof.
  intros E creds. pose proof (generateToken_cases cfg now keyType) as H.
  cbv zeta in H. fold creds in H.
  destruct creds as [[a|] [s|]]; simpl; try congruence.
  destruct H as [(_ & _ & E')|(_ & E')]; [|congruence].
  rewrite E in E'. injection E' as ->. simpl.
  repeat split. lia.
Qed.

Lemma generateToken_claims_witness :
  fst (environment_credentials both_configured (VStr "prod")) = Some "tProdApp"
  /\ tokenType (payload prod_token) = VStr "app"
  /\ (exp (payload prod_token) - iat (payload prod_token) = 30)%Z.
Proof.
  pose proof (generateToken_claims both_configured 1700000000 (VStr "prod")
                prod_token eq_refl) as H.
  split; [exact (proj1 H)|].
  split; [exact (proj1 (proj2 H)) | exact (proj1 (proj2 (proj2 (proj2 H))))].
Defined.

(** ** Pagination *)

Lemma users_url_default (cfg : config) (keyType : jsval) (l : Z) (c : jsval) :
  users_url cfg keyType l (default_param c VNull) = users_url cfg keyType l c.
Proof. destruct c; reflexivity. Qed.

Lemma fetchUsersPage_default (cfg : config) (up : upstream) (k : nat) (l : Z)
    (c keyType : jsval) :
  fetchUsersPage cfg up k l c (default_param keyType (VStr "dev"))
  = fetchUsersPage cfg up k l c keyType.
Proof.
  unfold fetchUsersPage. rewrite default_param_idem by discriminate.
  reflexivity.
Qed.

(** [fetchUsersPage] sends nothing when minting fails and one request
    otherwise. *)
Lemma fetchUsersPage_sent (cfg : config) (up : upstream) (k : nat) (l : Z)
    (c keyType : jsval) :
  (exists e, generateToken cfg (clock up k) keyType = Throw e
             /\ fetchUsersPage cfg up k l c keyType = (Throw e, []))
  \/ (exists tok r, generateToken cfg (clock up k) keyType = Return tok
                    /\ fetchUsersPage cfg up k l c keyType
                       = (r, [users_request cfg keyType l c tok])).
Proof.
  unfold fetchUsersPage. rewrite generateToken_default.
  destruct (generateToken cfg (clock up k) keyType) as [tok|e].
  - right. exists tok. unfold users_request.
    repeat break_match; eexists; (split; [reflexivity|]); reflexivity.
  - left. exists e. split; reflexivity.
Qed.

(** A page that [fetchUsersPage] returns from an answer that is no full page
    has fewer than [limit] records. *)
Lemma fetchUsersPage_not_full (cfg : config) (up : upstream) (k : nat)
    (c keyType : jsval) (tok : token) (users : jsval) :
  generateToken cfg (clock up k) keyType = Return tok ->
  is_full_page (answer up k (users_request cfg keyType limit c tok)) = false ->
  fst (fetchUsersPage cfg up k limit c keyType) = Return users ->
  (Z.of_nat (List.length (records_of users)) < limit)%Z.
Proof.
  intros Ht Hf. unfold fetchUsersPage. rewrite generateToken_default, Ht.
  fold (users_request cfg keyType limit c tok).
  unfold axios, is_full_page in *.
  destruct (answer up k (users_request cfg keyType limit c tok)) as [r|msg];
    [|simpl; discriminate].
  destruct ((200 <=? status r) && (status r <? 300))%Z; [|simpl; discriminate].
  destruct (status r =? 200)%Z; [|simpl; discriminate].
  simpl in Hf. unfold get_prop.
  destruct (data r) as [| | | | | |fields]; simpl; try discriminate.
  destruct (obj_get fields "data") eqn:E; simpl; try discriminate;
    intros H; injection H as <-; simpl in *; try (unfold limit; lia);
    apply Z.leb_gt in Hf; exact Hf.
Qed.

Section Loop.

Variable cfg : config.
Variable up : upstream.
Variable keyType : jsval.

Lemma loop_body_sent (st : loop_state) :
  sent (fst (loop_body cfg up keyType st))
  = (sent st ++ snd (page_request cfg up keyType st))%list.
Proof.
  unfold loop_body, page_request.
  destruct (fetchUsersPage _ _ _ _ _ _) as [[users|e] reqs]; simpl;
    repeat break_match; reflexivity.
Qed.

(** A failed page request ends the loop and leaves the accumulator alone. *)
Lemma loop_body_throw (st : loop_state) (e : js_error) :
  fst (page_request cfg up keyType st) = Throw e ->
  loop_body cfg up keyType st
  = (mkLoop (allUsers st) (startingAfter st)
            (sent st ++ snd (page_request cfg up keyType st))%list, false).
Proof.
  unfold loop_body, page_request.
  destruct (fetchUsersPage _ _ _ _ _ _) as [[users|e'] reqs]; simpl;
    [discriminate | reflexivity].
Qed.


(** The loop goes on exactly after a page of at least [limit] records whose
    last record can be read; the cursor is then that record's [id]. *)
Lemma loop_body_continues (st : loop_state) :
  snd (loop_body cfg up keyType st) = true <->
  exists users id,
    fst (page_request cfg up keyType st) = Return users
    /\ (limit <= Z.of_nat (List.length (records_of users)))%Z
    /\ get_prop (nth (List.length (records_of users) - 1) (records_of users)
                     VUndefined) "id" = Return id
    /\ startingAfter (fst (loop_body cfg up keyType st)) = id.
Proof.
  unfold loop_body, page_request.
  destruct (fetchUsersPage _ _ _ _ _ _) as [[users|e] reqs]; simpl.
  - destruct (0 <? Z.of_nat (List.length (records_of users)))%Z eqn:E.
    + destruct (get_prop _ "id") as [id|e] eqn:G; simpl.
      * split.
        -- intro H. exists users, id. rewrite G.
           apply negb_true_iff, Z.ltb_ge in H. repeat split; assumption.
        -- intros (u & i & Hu & Hl & _). injection Hu as <-.
           apply negb_true_iff, Z.ltb_ge. exact Hl.
      * split; [discriminate|].
        intros (u & i & Hu & _ & Hg & _). injection Hu as <-.
        rewrite G in Hg. discriminate.
    + simpl. split; [discriminate|].
      intros (u & i & Hu & Hl & _). injection Hu as <-.
      apply Z.ltb_ge in E. unfold limit in Hl. lia.
  - split; [discriminate|]. intros (u & i & Hu & _). discriminate.
Qed.

(** Running the loop with more fuel changes nothing once it has ended. *)
Lemma while_morePages_more_fuel (fuel : nat) :
  forall (st st' : loop_state) (extra : nat),
    while_morePages fuel cfg up keyType st = Some st' ->
    while_morePages (fuel + extra) cfg up keyType st = Some st'.
Proof.
  induction fuel as [|fuel IH]; intros st st' extra H; [discriminate|].
  simpl in *. destruct (loop_body cfg up keyType st) as [st1 more].
  destruct more; [apply IH|]; exact H.
Qed.

(** If the [n]-th answer is not a full page, the loop that has sent
    [n - d] requests ends within [d + 1] passes, having sent at most
    [n + 1] requests. *)
Lemma while_morePages_ends (n : nat) :
  (forall req, is_full_page (answer up n req) = false) ->
  forall (d : nat) (st : loop_state),
    List.length (sent st) + d = n ->
    exists st', while_morePages (S d) cfg up keyType st = Some st'
                /\ List.length (sent st') <= n + 1.
Proof.
  intros Hn. induction d as [|d IH]; intros st Hlen.
  - simpl. destruct (loop_body cfg up keyType st) as [st1 more] eqn:E.
    pose proof (loop_body_sent st) as Hs. rewrite E in Hs; simpl in Hs.
    assert (Hle : List.length (sent st1) <= n + 1).
    { rewrite Hs, length_app. unfold page_request.
      destruct (fetchUsersPage_sent cfg up (List.length (sent st)) limit
                  (startingAfter st) keyType) as [(e & _ & ->)|(t & r & _ & ->)];
        simpl; lia. }
    destruct more; [|eexists; split; [reflexivity|exact Hle]].
    exfalso.
    assert (Hc : snd (loop_body cfg up keyType st) = true) by (rewrite E; reflexivity).
    apply loop_body_continues in Hc.
    destruct Hc as (users & id & Hu & Hl & _).
    unfold page_request in Hu.
    destruct (fetchUsersPage_sent cfg up (List.length (sent st)) limit
                (startingAfter st) keyType) as [(e & _ & F)|(t & r & Ht & F)].
    + rewrite F in Hu. discriminate.
    + assert (Hk : List.length (sent st) = n) by lia.
      pose proof (fetchUsersPage_not_full cfg up (List.length (sent st))
                    (startingAfter st) keyType t users Ht) as Hnf.
      rewrite Hk in Hnf. specialize (Hnf (Hn _)).
      rewrite <- Hk in Hnf. specialize (Hnf Hu). lia.
  - cbn [while_morePages].
    destruct (loop_body cfg up keyType st) as [st1 more] eqn:E.
    pose proof (loop_body_sent st) as Hs. rewrite E in Hs; simpl in Hs.
    unfold page_request in Hs.
    destruct (fetchUsersPage_sent cfg up (List.length (sent st)) limit
                (startingAfter st) keyType) as [(e & _ & F)|(t & r & Ht & F)].
    + assert (Hc : snd (loop_body cfg up keyType st) = false).
      { rewrite (loop_body_throw st e); [reflexivity|].
        unfold page_request. rewrite F. reflexivity. }
      rewrite E in Hc; simpl in Hc; subst more.
      eexists; split; [reflexivity|].
      rewrite Hs, F, length_app. simpl. lia.
    + rewrite F in Hs; simpl in Hs.
      destruct more.
      * apply IH. rewrite Hs, length_app. simpl. lia.
      * eexists; split; [reflexivity|].
        rewrite Hs, length_app. simpl. lia.
Qed.

End Loop.

Lemma generateToken_configured (cfg : config) (now : Z) (keyType : jsval) :
  configured cfg keyType ->
  exists tok, generateToken cfg now keyType = Return tok.
Proof.
  unfold configured. intro N.
  pose proof (generateToken_cases cfg now keyType) as H. cbv zeta in H.
  destruct (environment_credentials cfg (default_param keyType (VStr "dev")))
    as [[a|] [s|]]; simpl in *.
  - destruct H as [(_ & _ & E)|([->| ->] & _)].
    + eexists; exact E.
    + exfalso; apply N; left; right; reflexivity.
    + exfalso; apply N; right; right; reflexivity.
  - exfalso; apply N; right; left; reflexivity.
  - exfalso; apply N; left; left; reflexivity.
  - exfalso; apply N; left; left; reflexivity.
Qed.

Lemma generateToken_not_configured (cfg : config) (now : Z) (keyType : jsval) :
  ~ configured cfg keyType ->
  generateToken cfg now keyType = Throw (config_error keyType).
Proof.
  unfold configured. intro N.
  pose proof (generateToken_cases cfg now keyType) as H. cbv zeta in H.
  destruct (environment_credentials cfg (default_param keyType (VStr "dev")))
    as [[a|] [s|]]; simpl in *; try exact H.
  destruct H as [(na & ns & _)|(_ & E)]; [|exact E].
  exfalso. apply N. intros [[U|U]|[U|U]]; try discriminate;
    injection U as U; contradiction.
Qed.

Lemma configured_default (cfg : config) (keyType : jsval) :
  configured cfg (default_param keyType (VStr "dev")) <-> configured cfg keyType.
Proof.
  unfold configured. rewrite default_param_idem by discriminate. tauto.
Qed.

Lemma ends_pagination_not_full (w : wire) :
  (exists users, w = page_reply users /\ List.length users < 100)
  \/ (exists r, w = Reply r /\ status r <> 200%Z)
  \/ (exists msg, w = NoReply msg) ->
  is_full_page w = false.
Proof.
  intros [(users & -> & H)|[(r & -> & H)|(msg & ->)]]; simpl.
  - apply Z.leb_gt. unfold limit. lia.
  - apply Z.eqb_neq in H. rewrite H. reflexivity.
  - reflexivity.
Qed.

Section Pages.

Variable cfg : config.
Variable up : upstream.
Variable keyType : jsval.
Hypothesis Hcfg : configured cfg keyType.

(** [fetchUsersPage] on a well-formed page. *)
Lemma fetchUsersPage_page (k : nat) (c : jsval) (users : list jsval) :
  (forall req, answer up k req = page_reply users) ->
  exists req,
    req_url req = users_url cfg (default_param keyType (VStr "dev")) limit c
    /\ fetchUsersPage cfg up k limit c keyType = (Return (VArr users), [req]).
Proof.
  intro Ha. destruct (generateToken_configured cfg (clock up k) keyType Hcfg)
    as [tok Ht].
  exists (users_request cfg keyType limit c tok). split.
  - apply users_url_default.
  - unfold fetchUsersPage. rewrite generateToken_default, Ht.
    fold (users_request cfg keyType limit c tok).
    unfold axios. rewrite Ha. reflexivity.
Qed.

(** A pass over a full page whose last record can be read. *)
Lemma loop_body_full_page (st : loop_state) (users : list jsval) (id : jsval) :
  (forall req, answer up (List.length (sent st)) req = page_reply users) ->
  (limit <= Z.of_nat (List.length users))%Z ->
  get_prop (nth (List.length users - 1) users VUndefined) "id" = Return id ->
  exists req,
    req_url req = users_url cfg (default_param keyType (VStr "dev")) limit
                    (startingAfter st)
    /\ loop_body cfg up keyType st
       = (mkLoop (allUsers st ++ users) id (sent st ++ [req]), true).
Proof.
  intros Ha Hl Hg.
  destruct (fetchUsersPage_page (List.length (sent st)) (startingAfter st) users Ha)
    as (req & Hu & F).
  exists req. split; [exact Hu|].
  unfold loop_body. rewrite F. cbn [records_of].
  assert (E1 : (0 <? Z.of_nat (List.length users))%Z = true)
    by (apply Z.ltb_lt; unfold limit in Hl; lia).
  assert (E2 : (Z.of_nat (List.length users) <? limit)%Z = false)
    by (apply Z.ltb_ge; exact Hl).
  rewrite E1, Hg, E2. reflexivity.
Qed.

(** A pass over a short (or empty) page: the page is appended and the loop
    ends. *)
Lemma loop_body_short_page (st : loop_state) (users : list jsval) :
  (forall req, answer up (List.length (sent st)) req = page_reply users) ->
  (Z.of_nat (List.length users) < limit)%Z ->
  exists req st',
    req_url req = users_url cfg (default_param keyType (VStr "dev")) limit
                    (startingAfter st)
    /\ loop_body cfg up keyType st = (st', false)
    /\ allUsers st' = (allUsers st ++ users)%list
    /\ sent st' = (sent st ++ [req])%list.
Proof.
  intros Ha Hl.
  destruct (fetchUsersPage_page (List.length (sent st)) (startingAfter st) users Ha)
    as (req & Hu & F).
  exists req. unfold loop_body. rewrite F. cbn [records_of].
  assert (E2 : (Z.of_nat (List.length users) <? limit)%Z = true)
    by (apply Z.ltb_lt; exact Hl).
  destruct (0 <? Z.of_nat (List.length users))%Z eqn:E1.
  - destruct (get_prop _ "id") as [id|e].
    + rewrite E2. eexists. repeat split. exact Hu.
    + eexists. repeat split. exact Hu.
  - eexists. repeat split; [exact Hu|]. simpl.
    apply Z.ltb_ge in E1. destruct users; [now rewrite app_nil_r|simpl in E1; lia].
Qed.

End Pages.

(** *** Runs on concrete upstreams *)

Example three_pages_run :
  option_map (fun r => (List.length (fst r), map req_url (snd r)))
             (fetchAllUsers 3 both_configured three_pages VUndefined)
  = Some (237,
          ["https://api.talkjs.com/v1/tDevApp/users?limit=100";
           "https://api.talkjs.com/v1/tDevApp/users?limit=100&startingAfter=user_99";
           "https://api.talkjs.com/v1/tDevApp/users?limit=100&startingAfter=user_199"]).
Proof. vm_compute. reflexivity. Qed.

(** Outside the contract of the listing: after a page of 101 records in
    answer to [limit=100] the loop still requests a further page, since it
    stops only on fewer than [limit] records. *)
Lemma fetchAllUsers_continues_after_101 :
  List.length (users_from 0 101) <> 100
  /\ option_map fst (fetchAllUsers 5 both_configured oversized_page VUndefined)
     = Some (users_from 0 102)
  /\ option_map (fun r => map req_url (snd r))
                (fetchAllUsers 5 both_configured oversized_page VUndefined)
     = Some ["https://api.talkjs.com/v1/tDevApp/users?limit=100";
             "https://api.talkjs.com/v1/tDevApp/users?limit=100&startingAfter=user_100"].
Proof.
  split; [vm_compute; discriminate|].
  split; vm_compute; reflexivity.
Qed.

(** *** Pages of user records *)

Lemma user_record_id (v : jsval) :
  user_record v -> exists s, get_prop v "id" = Return (VStr s).
Proof. intros (fields & s & -> & H). exists s. simpl. rewrite H. reflexivity. Qed.

(** The last record of a page of user records can be read. *)
Lemma user_page_last_id (page : list jsval) :
  Forall user_record page -> page <> [] ->
  get_prop (nth (List.length page - 1) page VUndefined) "id"
  = Return (last_id page).
Proof.
  intros F N. unfold last_id.
  assert (I : In (nth (List.length page - 1) page VUndefined) page).
  { apply nth_In. destruct page; [congruence | simpl; lia]. }
  destruct (user_record_id _ (proj1 (Forall_forall _ _) F _ I)) as [s ->].
  reflexivity.
Qed.

Lemma users_from_records (start count : nat) :
  Forall user_record (users_from start count).
Proof.
  unfold users_from. apply Forall_forall. intros v Hv.
  apply in_map_iff in Hv. destruct Hv as (n & <- & _).
  unfold user, user_record. eexists. eexists. split; reflexivity.
Qed.

(** What a returned page says about the upstream's answer. *)
Lemma fetchUsersPage_return_answer (cfg : config) (up : upstream) (k : nat)
    (c sel users : jsval) :
  fst (fetchUsersPage cfg up k limit c sel) = Return users ->
  exists tok resp,
    snd (fetchUsersPage cfg up k limit c sel) = [users_request cfg sel limit c tok]
    /\ answer up k (users_request cfg sel limit c tok) = Reply resp
    /\ status resp = 200%Z
    /\ get_prop (data resp) "data" = Return users.
Proof.
  unfold fetchUsersPage. rewrite generateToken_default.
  destruct (generateToken cfg (clock up k) sel) as [tok|e];
    [|simpl; discriminate].
  fold (users_request cfg sel limit c tok). unfold axios.
  destruct (answer up k (users_request cfg sel limit c tok)) as [resp|msg] eqn:A;
    [|simpl; discriminate].
  destruct ((200 <=? status resp) && (status resp <? 300))%Z;
    [|simpl; discriminate].
  destruct (Z.eqb_spec (status resp) 200) as [S|S]; [|simpl; discriminate].
  destruct (get_prop (data resp) "data") as [u|e] eqn:G; [|simpl; discriminate].
  destruct (get_prop u "length"); simpl; [|discriminate].
  intro H; injection H as <-.
  exists tok, resp. repeat split; try assumption; reflexivity.
Qed.

Section UserPages.

Variable cfg : config.
Variable up : upstream.
Variable sel : jsval.
Hypothesis Hcfg : configured cfg sel.

(** Full pages of user records are consumed one pass each; every pass asks
    for what comes after the last [id] of the page before. *)
Lemma while_through_user_pages :
  forall (pages : list (list jsval)) (st : loop_state),
    (forall i p, nth_error pages i = Some p ->
                 forall req, answer up (List.length (sent st) + i) req
                             = page_reply p) ->
    Forall (fun p => Forall user_record p /\ List.length p = 100) pages ->
    exists st_n,
      allUsers st_n = (allUsers st ++ List.concat pages)%list
      /\ List.length (sent st_n) = List.length (sent st) + List.length pages
      /\ (map req_url (sent st_n)
          ++ [users_url cfg (default_param sel (VStr "dev")) limit
                (startingAfter st_n)]
          = map req_url (sent st)
            ++ map (users_url cfg (default_param sel (VStr "dev")) limit)
                   (startingAfter st :: map last_id pages))%list
      /\ forall f, while_morePages (List.length pages + f) cfg up sel st
                   = while_morePages f cfg up sel st_n.
Proof.
  induction pages as [|p ps IH]; intros st Ha Hf.
  - exists st. simpl. rewrite app_nil_r. split; [reflexivity|].
    split; [lia|]. split; reflexivity.
  - inversion Hf as [|p' ps' [Hu Hl] Hps]; subst.
    assert (Hne : p <> []) by (intro E; subst; discriminate).
    destruct (loop_body_full_page cfg up sel Hcfg st p (last_id p))
      as (req & Hurl & B).
    { intro r. rewrite <- (Nat.add_0_r (List.length (sent st))).
      apply (Ha 0 p). reflexivity. }
    { rewrite Hl. unfold limit. lia. }
    { apply user_page_last_id; assumption. }
    destruct (IH (mkLoop (allUsers st ++ p) (last_id p) (sent st ++ [req])))
      as (st_n & HA & HL & HU & HW).
    { intros i q Hq r. simpl. rewrite length_app. simpl.
      replace (List.length (sent st) + 1 + i)
        with (List.length (sent st) + S i) by lia.
      apply (Ha (S i) q). exact Hq. }
    { exact Hps. }
    exists st_n. simpl in HA, HL, HU. rewrite length_app in HL. simpl in HL.
    split; [|split; [|split]].
    + rewrite HA. simpl. rewrite <- app_assoc. reflexivity.
    + simpl. lia.
    + rewrite HU, map_app. simpl. rewrite Hurl.
      rewrite <- app_assoc. reflexivity.
    + intro f. simpl. rewrite B. apply HW.
Qed.

End UserPages.

Section Rule.

Variable cfg : config.
Variable up : upstream.
Variable kt : jsval.
Hypothesis Hlimit : honours_limit up.
Hypothesis Hidem : default_param kt (VStr "dev") = kt.

Lemma loop_body_follows (st st1 : loop_state) (more : bool) :
  pairs_follow cfg up kt (sent st) ->
  cursor_follows up st ->
  loop_body cfg up kt st = (st1, more) ->
  pairs_follow cfg up kt (sent st1)
  /\ (more = true -> cursor_follows up st1).
Proof.
  intros HP HC B.
  pose proof (loop_body_sent cfg up kt st) as Hs.
  pose proof (proj1 (loop_body_continues cfg up kt st)) as Hc.
  rewrite B in Hs, Hc. simpl in Hs, Hc. unfold page_request in *.
  destruct (fetchUsersPage_sent cfg up (List.length (sent st)) limit
              (startingAfter st) kt) as [(e & _ & F)|(tok & o & _ & F)].
  - rewrite F in Hs, Hc. simpl in Hs. rewrite app_nil_r in Hs.
    rewrite Hs. split; [exact HP|].
    intro M. destruct (Hc M) as (u & i & Hu & _). discriminate.
  - set (r_new := users_request cfg kt limit (startingAfter st) tok) in *.
    assert (Hurl : req_url r_new = users_url cfg kt limit (startingAfter st)).
    { unfold r_new, users_request. simpl. rewrite Hidem.
      apply users_url_default. }
    rewrite F in Hs. simpl in Hs. split.
    + rewrite Hs. intros k r r' Hk Hk'.
      destruct (Nat.lt_ge_cases (S k) (List.length (sent st))) as [Lt|Ge].
      * rewrite nth_error_app1 in Hk by lia.
        rewrite nth_error_app1 in Hk' by lia.
        exact (HP k r r' Hk Hk').
      * assert (E : S k = List.length (sent st)).
        { assert (S k < List.length (sent st ++ [r_new])).
          { apply nth_error_Some. congruence. }
          rewrite length_app in H. simpl in H. lia. }
        rewrite nth_error_app1 in Hk by lia.
        rewrite nth_error_app2 in Hk' by lia.
        replace (S k - List.length (sent st)) with 0 in Hk' by lia.
        simpl in Hk'. injection Hk' as <-.
        destruct (HC k r Hk E) as (resp & users & Ha & S2 & G & L & C).
        exists resp, users. repeat split; try assumption.
        rewrite Hurl, C. reflexivity.
    + intro M. destruct (Hc M) as (users & id & Hu & Hlen & Hg & Hsa).
      destruct (fetchUsersPage_return_answer cfg up (List.length (sent st))
                  (startingAfter st) kt users Hu)
        as (tok' & resp & Hsnt & Ha & S2 & G).
      rewrite F in Hsnt. simpl in Hsnt. injection Hsnt as Et.
      fold r_new in Et. rewrite <- Et in Ha.
      intros k r Hk Hlast. rewrite Hs in Hk, Hlast.
      rewrite length_app in Hlast. simpl in Hlast.
      assert (E : k = List.length (sent st)) by lia. subst k.
      rewrite nth_error_app2 in Hk by lia.
      rewrite Nat.sub_diag in Hk. simpl in Hk. injection Hk as <-.
      exists resp, users. split; [exact Ha|]. split; [exact S2|].
      split; [exact G|].
      destruct (Hlimit _ _ _ _ Ha S2 G) as [_ Hle].
      split; [unfold limit in *; lia|].
      rewrite Hsa. unfold last_id. rewrite Hg. reflexivity.
Qed.

Lemma while_morePages_follows (fuel : nat) :
  forall st st',
    pairs_follow cfg up kt (sent st) ->
    cursor_follows up st ->
    while_morePages fuel cfg up kt st = Some st' ->
    pairs_follow cfg up kt (sent st').
Proof.
  induction fuel as [|fuel IH]; intros st st' HP HC H; [discriminate|].
  cbn [while_morePages] in H.
  destruct (loop_body cfg up kt st) as [st1 more] eqn:B.
  destruct (loop_body_follows st st1 more HP HC B) as [HP1 HC1].
  destruct more.
  - exact (IH st1 st' HP1 (HC1 eq_refl) H).
  - injection H as <-. exact HP1.
Qed.

End Rule.

Lemma page_reply_records (up : upstream) (k : nat) (p : list jsval) :
  honours_limit up ->
  (forall req, answer up k req = page_reply p) ->
  Forall user_record p.
Proof.
  intros H Ha.
  exact (proj1 (H k any_request (mkResponse 200 (VObj [("data", VArr p)]))
                 (VArr p) (Ha any_request) eq_refl eq_refl)).
Qed.

Lemma three_pages_honours_limit : honours_limit three_pages.
Proof.
  intros k req resp users Ha Hs Hg.
  destruct k as [|[|[|k]]]; simpl in Ha;
    try (injection Ha as <-; simpl in Hg; injection Hg as <-;
         split; [apply users_from_records | vm_compute; discriminate]).
  destruct k; discriminate.
Qed.

(** C4: against an upstream that keeps to the listing's contract (pages of
    user records, never more than 100 of them) and answers with pages of
    100, 100 and 37 records, [fetchAllUsers] returns the 237 records of the
    three pages in upstream order and sends exactly three requests, none
    after the 37-record page. In every run, a request that follows another
    one follows a page of exactly 100 records, and carries the [id] of the
    last record of that page as cursor. *)
Theorem fetchAllUsers_pagination (cfg : config) (up : upstream) (keyType : jsval) :
  configured cfg keyType ->
  honours_limit up ->
  let kt := default_param keyType (VStr "dev") in
  (forall (p1 p2 p3 : list jsval),
      (forall req, answer up 0 req = page_reply p1) ->
      (forall req, answer up 1 req = page_reply p2) ->
      (forall req, answer up 2 req = page_reply p3) ->
      List.length p1 = 100 -> List.length p2 = 100 -> List.length p3 = 37 ->
      exists reqs,
        map req_url reqs = [users_url cfg kt limit VNull;
                            users_url cfg kt limit (last_id p1);
                            users_url cfg kt limit (last_id p2)]
        /\ List.length (p1 ++ p2 ++ p3) = 237
        /\ forall fuel, 3 <= fuel ->
             fetchAllUsers fuel cfg up keyType = Some ((p1 ++ p2 ++ p3)%list, reqs))
  /\ (forall (fuel : nat) (users : list jsval) (reqs : list request)
             (k : nat) (r r' : request),
        fetchAllUsers fuel cfg up keyType = Some (users, reqs) ->
        nth_error reqs k = Some r ->
        nth_error reqs (S k) = Some r' ->
        follows_full_page cfg up kt k r r').
Proof.
  intros Hcfg Hlimit kt.
  assert (Hkt : configured cfg kt) by (apply configured_default; exact Hcfg).
  assert (Hidem : default_param kt (VStr "dev") = kt)
    by (apply default_param_idem; discriminate).
  split.
  - intros p1 p2 p3 A0 A1 A2 L1 L2 L3.
    pose proof (page_reply_records up 0 p1 Hlimit A0) as U1.
    pose proof (page_reply_records up 1 p2 Hlimit A1) as U2.
    destruct (while_through_user_pages cfg up kt Hkt [p1; p2] (mkLoop [] VNull []))
      as (st_n & HA & HL & HU & HW).
    { intros i p H req. destruct i as [|[|i]]; simpl in H.
      - injection H as <-. apply A0.
      - injection H as <-. apply A1.
      - destruct i; discriminate. }
    { repeat constructor; assumption. }
    simpl in HA, HL, HU. rewrite Hidem in HU.
    destruct (loop_body_short_page cfg up kt Hkt st_n p3)
      as (req & st' & Hurl & B & HA' & HS').
    { rewrite HL. exact A2. }
    { rewrite L3. unfold limit. lia. }
    rewrite Hidem in Hurl.
    exists (sent st'). split; [|split].
    + rewrite HS', map_app. simpl. rewrite Hurl. exact HU.
    + rewrite !length_app, L1, L2, L3. reflexivity.
    + intros fuel Hf. unfold fetchAllUsers. fold kt.
      replace fuel with (2 + S (fuel - 3)) by lia.
      change 2 with (List.length [p1; p2]). rewrite HW.
      cbn [while_morePages]. rewrite B, HA', HA.
      rewrite app_nil_r, <- app_assoc. reflexivity.
  - intros fuel users reqs k r r' H. unfold fetchAllUsers in H. fold kt in H.
    destruct (while_morePages fuel cfg up kt (mkLoop [] VNull [])) as [st'|] eqn:W;
      [|discriminate].
    injection H as _ <-.
    apply (while_morePages_follows cfg up kt Hlimit Hidem fuel
             (mkLoop [] VNull []) st'); [| |exact W].
    + intros k0 r0 r0' H0. destruct k0; discriminate.
    + intros k0 r0 H0. destruct k0; discriminate.
Qed.

Lemma fetchAllUsers_pagination_witness :
  exists reqs,
    map req_url reqs
    = ["https://api.talkjs.com/v1/tDevApp/users?limit=100";
       "https://api.talkjs.com/v1/tDevApp/users?limit=100&startingAfter=user_99";
       "https://api.talkjs.com/v1/tDevApp/users?limit=100&startingAfter=user_199"]
    /\ fetchAllUsers 3 both_configured three_pages VUndefined
       = Some ((users_from 0 100 ++ users_from 100 100 ++ users_from 200 37)%list,
               reqs).
Proof.
  assert (Hcfg : configured both_configured VUndefined).
  { intros [[H|H]|[H|H]]; discriminate. }
  destruct (proj1 (fetchAllUsers_pagination both_configured three_pages
                     VUndefined Hcfg three_pages_honours_limit)
              (users_from 0 100) (users_from 100 100) (users_from 200 37))
    as (reqs & Hurl & _ & Hrun);
    try (intros; reflexivity); try reflexivity.
  exists reqs. split; [exact Hurl | apply Hrun; lia].
Defined.

(** C5: a page request that fails ends [fetchAllUsers] with the records
    collected so far, and no error reaches the caller: after any number of
    full pages of user records, a failing page request makes the operation
    return exactly the records of those pages, in upstream order, having
    sent one request per page and the failing one (nothing at all is
    collected when it is the first request that fails). In particular, when
    the first page is a full page and the second page request fails, the
    result is the records of the first page. *)
Theorem fetchAllUsers_partial_on_failure (cfg : config) (up : upstream)
    (keyType : jsval) :
  configured cfg keyType ->
  let kt := default_param keyType (VStr "dev") in
  (forall (pages : list (list jsval)),
      (forall i p, nth_error pages i = Some p ->
                   forall req, answer up i req = page_reply p) ->
      Forall (fun p => Forall user_record p /\ List.length p = 100) pages ->
      (forall cursor, exists e,
          fst (fetchUsersPage cfg up (List.length pages) limit cursor keyType)
          = Throw e) ->
      exists reqs,
        map req_url reqs
        = map (users_url cfg kt limit) (VNull :: map last_id pages)
        /\ forall fuel, List.length pages < fuel ->
             fetchAllUsers fuel cfg up keyType = Some (List.concat pages, reqs))
  /\ (forall (p1 : list jsval),
        (forall req, answer up 0 req = page_reply p1) ->
        Forall user_record p1 -> List.length p1 = 100 ->
        (forall cursor, exists e,
            fst (fetchUsersPage cfg up 1 limit cursor keyType) = Throw e) ->
        exists reqs,
          map req_url reqs = [users_url cfg kt limit VNull;
                              users_url cfg kt limit (last_id p1)]
          /\ forall fuel, 2 <= fuel ->
               fetchAllUsers fuel cfg up keyType = Some (p1, reqs)).
Proof.
  intros Hcfg kt.
  assert (Hkt : configured cfg kt) by (apply configured_default; exact Hcfg).
  assert (Hidem : default_param kt (VStr "dev") = kt)
    by (apply default_param_idem; discriminate).
  assert (General : forall (pages : list (list jsval)),
      (forall i p, nth_error pages i = Some p ->
                   forall req, answer up i req = page_reply p) ->
      Forall (fun p => Forall user_record p /\ List.length p = 100) pages ->
      (forall cursor, exists e,
          fst (fetchUsersPage cfg up (List.length pages) limit cursor keyType)
          = Throw e) ->
      exists reqs,
        map req_url reqs
        = map (users_url cfg kt limit) (VNull :: map last_id pages)
        /\ forall fuel, List.length pages < fuel ->
             fetchAllUsers fuel cfg up keyType = Some (List.concat pages, reqs)).
  { intros pages Ha Hf Hfail.
    destruct (while_through_user_pages cfg up kt Hkt pages (mkLoop [] VNull []))
      as (st_n & HA & HL & HU & HW); [exact Ha | exact Hf |].
    simpl in HA, HL, HU. rewrite Hidem in HU.
    assert (P : exists e, fst (page_request cfg up kt st_n) = Throw e).
    { unfold page_request, kt. rewrite fetchUsersPage_default, HL. apply Hfail. }
    destruct P as [e P].
    pose proof (loop_body_throw cfg up kt st_n e P) as B.
    assert (R : exists req,
               snd (page_request cfg up kt st_n) = [req]
               /\ req_url req = users_url cfg kt limit (startingAfter st_n)).
    { unfold page_request.
      destruct (fetchUsersPage_sent cfg up (List.length (sent st_n)) limit
                  (startingAfter st_n) kt) as [(e' & Ht & _)|(t & o & _ & ->)].
      - destruct (generateToken_configured cfg
                    (clock up (List.length (sent st_n))) kt Hkt) as [t Ht'].
        congruence.
      - eexists. split; [reflexivity|]. simpl. rewrite Hidem.
        apply users_url_default. }
    destruct R as (req & R1 & R2).
    exists (sent st_n ++ [req])%list. split.
    - rewrite map_app. simpl. rewrite R2. exact HU.
    - intros fuel Hfuel. unfold fetchAllUsers. fold kt.
      replace fuel with (List.length pages + S (fuel - S (List.length pages)))
        by lia.
      rewrite HW. cbn [while_morePages]. rewrite B, R1. simpl. rewrite HA.
      reflexivity. }
  split; [exact General|].
  intros p1 A0 U1 L1 Hfail.
  destruct (General [p1]) as (reqs & Hurl & Hrun).
  - intros i p H req. destruct i as [|i]; simpl in H.
    + injection H as <-. apply A0.
    + destruct i; discriminate.
  - repeat constructor; assumption.
  - exact Hfail.
  - exists reqs. split; [exact Hurl|].
    intros fuel Hf. rewrite (Hrun fuel) by (simpl; lia).
    simpl. rewrite app_nil_r. reflexivity.
Qed.

Lemma fetchAllUsers_partial_on_failure_witness :
  (exists reqs,
     map req_url reqs
     = ["https://api.talkjs.com/v1/tDevApp/users?limit=100";
        "https://api.talkjs.com/v1/tDevApp/users?limit=100&startingAfter=user_99"]
     /\ fetchAllUsers 2 both_configured second_page_fails (VStr "dev")
        = Some (users_from 0 100, reqs))
  /\ (exists reqs,
        map req_url reqs = ["https://api.talkjs.com/v1/tDevApp/users?limit=100"]
        /\ fetchAllUsers 1 both_configured conversation_missing (VStr "dev")
           = Some ([], reqs)).
Proof.
  assert (Hcfg : configured both_configured (VStr "dev")).
  { intros [[H|H]|[H|H]]; discriminate. }
  split.
  - destruct (proj2 (fetchAllUsers_partial_on_failure both_configured
                       second_page_fails (VStr "dev") Hcfg)
                (users_from 0 100))
      as (reqs & Hurl & Hrun).
    + intro req. reflexivity.
    + apply users_from_records.
    + reflexivity.
    + intro cursor. eexists. reflexivity.
    + exists reqs. split; [exact Hurl | apply Hrun; lia].
  - destruct (proj1 (fetchAllUsers_partial_on_failure both_configured
                       conversation_missing (VStr "dev") Hcfg) [])
      as (reqs & Hurl & Hrun).
    + intros i p H. destruct i; discriminate.
    + constructor.
    + intro cursor. eexists. reflexivity.
    + exists reqs. split; [exact Hurl | apply Hrun; simpl; lia].
Defined.

(** C10: [fetchAllUsers] terminates whenever some answer of the upstream,
    the [n]-th, is not a full page (a page of fewer than 100 records, an
    empty page, or a failed request): the loop ends within [n + 1] passes
    and requests, and the result is the same for every larger bound on the
    number of passes. *)
Theorem fetchAllUsers_terminates (cfg : config) (up : upstream)
    (keyType : jsval) (n : nat) :
  (forall req, is_full_page (answer up n req) = false) ->
  exists users sent,
    List.length sent <= n + 1
    /\ forall fuel, n < fuel ->
         fetchAllUsers fuel cfg up keyType = Some (users, sent).
Proof.
  intro Hn.
  set (kt := default_param keyType (VStr "dev")).
  destruct (while_morePages_ends cfg up kt n Hn n (mkLoop [] VNull []))
    as (st' & Hrun & Hlen); [reflexivity|].
  exists (allUsers st'), (sent st'). split; [exact Hlen|].
  intros fuel Hf. unfold fetchAllUsers. fold kt.
  replace fuel with (S n + (fuel - S n)) by lia.
  rewrite (while_morePages_more_fuel cfg up kt (S n) _ st' _ Hrun).
  reflexivity.
Qed.

Lemma fetchAllUsers_terminates_witness :
  exists users sent,
    List.length sent <= 2 + 1
    /\ forall fuel, 2 < fuel ->
         fetchAllUsers fuel both_configured three_pages VUndefined
         = Some (users, sent).
Proof.
  apply (fetchAllUsers_terminates both_configured three_pages VUndefined 2).
  intro req. reflexivity.
Defined.

(** ** The routes *)

Lemma append_assoc (a b c : string) : (a ++ b) ++ c = a ++ (b ++ c).
Proof. induction a as [|x a IH]; simpl; [reflexivity | now rewrite IH]. Qed.

Lemma appIdToUse_env (cfg : config) (keyType : jsval) :
  appIdToUse cfg keyType = env_val (fst (environment_credentials cfg keyType)).
Proof.
  pose proof (select_credentials_env cfg keyType) as H.
  unfold select_credentials in H. unfold appIdToUse.
  destruct (strict_eq_str keyType "prod"); injection H as H _; exact H.
Qed.

Lemma minted_token_credentials (cfg : config) (now : Z) (sel : jsval) (tok : token) :
  generateToken cfg now sel = Return tok ->
  let creds := environment_credentials cfg (default_param sel (VStr "dev")) in
  fst creds = Some (iss (payload tok)) /\ snd creds = Some (key tok).
Proof.
  intros E creds. pose proof (generateToken_cases cfg now sel) as H.
  cbv zeta in H. fold creds in H.
  destruct creds as [[a|] [s|]]; simpl; try congruence.
  destruct H as [(_ & _ & E')|(_ & E')]; [|congruence].
  rewrite E in E'. injection E' as ->. split; reflexivity.
Qed.

(** [callTalkJSApi] sends at most one request, exactly one when the selected
    environment is configured, and sends it with the credentials of the
    environment its [keyType] names. *)
Lemma callTalkJSApi_credentials (cfg : config) (up : upstream) (k : nat)
    (endpoint : string) (method sel data : jsval) :
  Forall (uses_credentials_of cfg sel)
         (snd (callTalkJSApi cfg up k endpoint method sel data))
  /\ (configured cfg sel ->
      List.length (snd (callTalkJSApi cfg up k endpoint method sel data)) = 1)
  /\ (~ configured cfg sel ->
      callTalkJSApi cfg up k endpoint method sel data
      = (Throw (config_error sel), [])).
Proof.
  unfold callTalkJSApi. rewrite generateToken_default.
  destruct (generateToken cfg (clock up k) sel) as [tok|e] eqn:E.
  - assert (U : uses_credentials_of cfg sel
                  (mkRequest (default_param method (VStr "GET"))
                     (base_url
                      ++ to_string (appIdToUse cfg (default_param sel (VStr "dev")))
                      ++ endpoint)
                     tok "application/json" (default_param data VNull))).
    { destruct (minted_token_credentials cfg _ sel tok E) as [H1 H2].
      split; [exact H1|]. split; [exact H2|].
      exists endpoint. simpl. rewrite appIdToUse_env, H1. reflexivity. }
    destruct (axios up k _); simpl; repeat split;
      try (constructor; [exact U | constructor]).
    + intro N. rewrite (generateToken_not_configured cfg _ sel N) in E.
      discriminate.
    + intro N. rewrite (generateToken_not_configured cfg _ sel N) in E.
      discriminate.
  - simpl. split; [constructor|]. split.
    + intro C. destruct (generateToken_configured cfg (clock up k) sel C) as [t Ht].
      congruence.
    + intro N. rewrite (generateToken_not_configured cfg _ sel N) in E.
      injection E as <-. reflexivity.
Qed.

Lemma fetchUsersPage_credentials (cfg : config) (up : upstream) (k : nat)
    (c sel : jsval) :
  Forall (uses_credentials_of cfg sel)
         (snd (fetchUsersPage cfg up k limit c sel)).
Proof.
  destruct (fetchUsersPage_sent cfg up k limit c sel)
    as [(e & _ & ->)|(tok & r & Ht & ->)]; simpl; constructor; [|constructor].
  destruct (minted_token_credentials cfg _ sel tok Ht) as [H1 H2].
  split; [exact H1|]. split; [exact H2|].
  unfold users_request, users_url; simpl.
  rewrite appIdToUse_env, H1. simpl.
  destruct (truthy (default_param c VNull)).
  - eexists. rewrite !append_assoc. reflexivity.
  - eexists. reflexivity.
Qed.

Lemma while_morePages_credentials (cfg : config) (up : upstream) (sel : jsval)
    (fuel : nat) :
  forall st st',
    Forall (uses_credentials_of cfg sel) (sent st) ->
    while_morePages fuel cfg up sel st = Some st' ->
    Forall (uses_credentials_of cfg sel) (sent st').
Proof.
  induction fuel as [|fuel IH]; intros st st' Hst H; [discriminate|].
  cbn [while_morePages] in H.
  pose proof (loop_body_sent cfg up sel st) as Hs.
  destruct (loop_body cfg up sel st) as [st1 more]; simpl in Hs.
  assert (H1 : Forall (uses_credentials_of cfg sel) (sent st1)).
  { rewrite Hs. apply Forall_app. split; [exact Hst|].
    apply fetchUsersPage_credentials. }
  destruct more; [exact (IH _ _ H1 H) | injection H as <-; exact H1].
Qed.

Lemma while_morePages_sends (cfg : config) (up : upstream) (sel : jsval)
    (fuel : nat) :
  configured cfg sel ->
  forall st st',
    while_morePages fuel cfg up sel st = Some st' ->
    List.length (sent st) < List.length (sent st').
Proof.
  intro C. induction fuel as [|fuel IH]; intros st st' H; [discriminate|].
  cbn [while_morePages] in H.
  pose proof (loop_body_sent cfg up sel st) as Hs. unfold page_request in Hs.
  destruct (loop_body cfg up sel st) as [st1 more]; simpl in Hs.
  assert (H1 : List.length (sent st1) = List.length (sent st) + 1).
  { rewrite Hs, length_app.
    destruct (fetchUsersPage_sent cfg up (List.length (sent st)) limit
                (startingAfter st) sel) as [(e & Ht & _)|(t & r & _ & ->)];
      [|reflexivity].
    destruct (generateToken_configured cfg (clock up (List.length (sent st))) sel C)
      as [t Ht']. congruence. }
  destruct more.
  - specialize (IH _ _ H). lia.
  - injection H as <-. lia.
Qed.

Lemma uses_credentials_of_js_or (cfg : config) (q : jsval) (r : request) :
  uses_credentials_of cfg (default_param (js_or q (VStr "dev")) (VStr "dev")) r
  <-> uses_credentials_of cfg q r.
Proof.
  assert (E : environment_credentials cfg
                (default_param (default_param (js_or q (VStr "dev")) (VStr "dev"))
                               (VStr "dev"))
              = environment_credentials cfg (default_param q (VStr "dev"))).
  { unfold js_or. destruct q as [| |b|n|s|l|f]; simpl; try reflexivity.
    - destruct b; reflexivity.
    - destruct (n =? 0)%Z; reflexivity.
    - destruct s; reflexivity. }
  unfold uses_credentials_of. rewrite E. tauto.
Qed.

Lemma configured_js_or (cfg : config) (q : jsval) :
  configured cfg (default_param (js_or q (VStr "dev")) (VStr "dev"))
  <-> configured cfg q.
Proof.
  assert (E : environment_credentials cfg
                (default_param (default_param (js_or q (VStr "dev")) (VStr "dev"))
                               (VStr "dev"))
              = environment_credentials cfg (default_param q (VStr "dev"))).
  { unfold js_or. destruct q as [| |b|n|s|l|f]; simpl; try reflexivity.
    - destruct b; reflexivity.
    - destruct (n =? 0)%Z; reflexivity.
    - destruct s; reflexivity. }
  unfold configured. rewrite E. tauto.
Qed.

Lemma callTalkJSApi_served_by (cfg : config) (up : upstream) (k : nat)
    (endpoint : string) (method sel data : jsval) :
  served_by cfg sel (snd (callTalkJSApi cfg up k endpoint method sel data)).
Proof.
  destruct (callTalkJSApi_credentials cfg up k endpoint method sel data)
    as (F & L & _).
  split; [exact F|]. intro C. rewrite (L C). lia.
Qed.

(** C8, as stated, fails: [GET /conversations?keyType=prod] calls the
    upstream with the dev credentials, not the prod ones. *)
Lemma get_conversations_ignores_keyType :
  let sent := snd (get_conversations plain_model plain_model both_configured
                     (scripted [])
                     (mkReq [] [("keyType", VStr "prod")] [])) in
  environment_credentials both_configured (VStr "prod")
  = (Some "tProdApp", Some "sk_prod_1")
  /\ map req_url sent = ["https://api.talkjs.com/v1/tDevApp/conversations"]
  /\ map (fun r => (iss (payload (req_bearer r)), key (req_bearer r))) sent
     = [("tDevApp", "sk_dev_1")].
Proof. repeat split. Qed.

(** C8 (amended): the participant routes, [GET /conversations/:conversationId],
    [GET /users/:userId/conversations] and [GET /users] take the environment
    selector from the query parameter [keyType], and
    [GET /v1/:appId/users/:userId] takes it from its path segment; an absent
    selector means [dev]. [GET /conversations] reads no selector: its
    upstream call is always made with the dev credentials. *)
Theorem routes_environment_selector
    (Message Conversation : jsval -> outcome jsval)
    (cfg : config) (up : upstream) (req : express_request) :
  let q := obj_get (query req) "keyType" in
  served_by cfg q (snd (put_participant cfg up req))
  /\ served_by cfg q (snd (delete_participant cfg up req))
  /\ served_by cfg q (snd (get_conversation Message Conversation cfg up req))
  /\ served_by cfg q (snd (get_user_conversations cfg up req))
  /\ (forall fuel res sent,
        get_users cfg up fuel req = Some (res, sent) -> served_by cfg q sent)
  /\ served_by cfg (obj_get (params req) "appId") (snd (get_user cfg up req))
  /\ served_by cfg (VStr "dev")
       (snd (get_conversations Message Conversation cfg up req))
  /\ (forall sent, served_by cfg VUndefined sent <-> served_by cfg (VStr "dev") sent).
Proof.
  intro q.
  split; [|split; [|split; [|split; [|split; [|split; [|split]]]]]].
  - unfold put_participant.
    pose proof (callTalkJSApi_served_by cfg up 0
      (participant_endpoint (obj_get (params req) "conversationId")
                            (obj_get (params req) "userId"))
      (VStr "PUT") q
      (VObj [("access", obj_get (body req) "access");
             ("notify", obj_get (body req) "notify")])) as H.
    fold q. destruct (callTalkJSApi _ _ _ _ _ _ _) as [r sent]. exact H.
  - unfold delete_participant.
    pose proof (callTalkJSApi_served_by cfg up 0
      (participant_endpoint (obj_get (params req) "conversationId")
                            (obj_get (params req) "userId"))
      (VStr "DELETE") q VUndefined) as H.
    fold q. destruct (callTalkJSApi _ _ _ _ _ _ _) as [r sent]. exact H.
  - unfold get_conversation.
    pose proof (callTalkJSApi_served_by cfg up 0
      ("/conversations/" ++ to_string (obj_get (params req) "conversationId"))
      (VStr "GET") q VUndefined) as H.
    fold q. destruct (callTalkJSApi _ _ _ _ _ _ _) as [r sent]. exact H.
  - unfold get_user_conversations.
    pose proof (callTalkJSApi_served_by cfg up 0
      ("/users/" ++ to_string (obj_get (params req) "userId") ++ "/conversations")
      (VStr "GET") q VUndefined) as H.
    fold q. destruct (callTalkJSApi _ _ _ _ _ _ _) as [r sent]. exact H.
  - intros fuel res sent. unfold get_users, fetchAllUsers. fold q.
    set (kt := default_param (js_or q (VStr "dev")) (VStr "dev")).
    destruct (while_morePages fuel cfg up kt (mkLoop [] VNull [])) as [st'|] eqn:W;
      [|discriminate].
    intro H; injection H as _ <-.
    split.
    + pose proof (while_morePages_credentials cfg up kt fuel
                    (mkLoop [] VNull []) st' (Forall_nil _) W) as F.
      eapply Forall_impl; [|exact F].
      intros r Hr. apply (uses_credentials_of_js_or cfg q r). exact Hr.
    + intro C.
      assert (Ck : configured cfg kt) by (apply configured_js_or; exact C).
      pose proof (while_morePages_sends cfg up kt fuel Ck
                    (mkLoop [] VNull []) st' W) as L.
      simpl in L. lia.
  - unfold get_user.
    pose proof (callTalkJSApi_served_by cfg up 0
      ("/users/" ++ to_string (obj_get (params req) "userId"))
      (VStr "GET") (obj_get (params req) "appId") VUndefined) as H.
    destruct (callTalkJSApi _ _ _ _ _ _ _) as [r sent]. exact H.
  - unfold get_conversations.
    pose proof (callTalkJSApi_served_by cfg up 0 "/conversations"
      VUndefined VUndefined VUndefined) as H.
    destruct (callTalkJSApi _ _ _ _ _ _ _) as [r sent]. exact H.
  - intro sent. reflexivity.
Qed.

Example get_conversation_uses_prod :
  map (fun r => (req_url r, iss (payload (req_bearer r))))
      (snd (get_conversation plain_model plain_model both_configured
              (scripted []) conversation_request))
  = [("https://api.talkjs.com/v1/tProdApp/conversations/c42", "tProdApp")].
Proof. reflexivity. Qed.

(** An answer outside 2xx reaches the caller of [callTalkJSApi] as an error
    that carries the answer; a transport failure as one that carries none. *)
Lemma callTalkJSApi_upstream_failure (cfg : config) (up : upstream) (k : nat)
    (endpoint : string) (method sel data : jsval) (w : wire) :
  configured cfg sel ->
  (forall r, answer up k r = w) ->
  match w with
  | Reply resp =>
      if ((200 <=? status resp) && (status resp <? 300))%Z
      then fst (callTalkJSApi cfg up k endpoint method sel data)
           = Return (Http.data resp)
      else exists error,
             fst (callTalkJSApi cfg up k endpoint method sel data) = Throw error
             /\ response error = Some resp
  | NoReply msg =>
      fst (callTalkJSApi cfg up k endpoint method sel data) = Throw (Error msg)
  end.
Proof.
  intros C Ha. unfold callTalkJSApi. rewrite generateToken_default.
  destruct (generateToken_configured cfg (clock up k) sel C) as [tok ->].
  unfold axios. rewrite Ha. destruct w as [resp|msg]; [|reflexivity].
  destruct ((200 <=? status resp) && (status resp <? 300))%Z; [reflexivity|].
  eexists. split; reflexivity.
Qed.

(** C6: when the upstream call of [GET /conversations/:conversationId] fails
    with status 404, the route answers 404 with the not-found message that
    names the requested id; every other failure of the call is answered with
    status 500 and the body [{error, details}]. *)
Theorem get_conversation_error_mapping
    (Message Conversation : jsval -> outcome jsval)
    (cfg : config) (up : upstream) (req : express_request) (error : js_error) :
  let conversationId := obj_get (params req) "conversationId" in
  fst (callTalkJSApi cfg up 0 ("/conversations/" ++ to_string conversationId)
         (VStr "GET") (obj_get (query req) "keyType") VUndefined)
  = Throw error ->
  let res := fst (get_conversation Message Conversation cfg up req) in
  (response_status error = VNum 404 ->
   res = mkRes 404
           (VObj [("error", VStr ("Conversación con ID "
                                  ++ to_string conversationId
                                  ++ " no encontrada."))]))
  /\ (response_status error <> VNum 404 ->
      res = mkRes 500 (VObj [("error", VStr (message error));
                             ("details", response_data error)])).
Proof.
  intros conversationId H res. unfold res, get_conversation.
  fold conversationId.
  destruct (callTalkJSApi cfg up 0 _ _ _ _) as [r sent]. simpl in H. subst r.
  simpl. unfold status_is_404. split.
  - intros ->. reflexivity.
  - intro N. destruct (response_status error) as [| | |n| | |]; try reflexivity.
    destruct (Z.eqb_spec n 404) as [->|]; [congruence | reflexivity].
Qed.

Lemma get_conversation_error_mapping_witness :
  fst (get_conversation plain_model plain_model both_configured
         conversation_missing conversation_request)
  = mkRes 404 (VObj [("error", VStr "Conversación con ID c42 no encontrada.")]).
Proof.
  apply (proj1 (get_conversation_error_mapping plain_model plain_model
                  both_configured conversation_missing conversation_request
                  (mkError "Request failed with status code 404"
                     (Some (mkResponse 404
                              (VObj [("errorCode", VStr "NOT_FOUND")]))))
                  eq_refl)).
  reflexivity.
Defined.

(** C7: with the environment configured,
    [PUT /conversations/:conversationId/participants/:userId] sends exactly
    one upstream request: a PUT to
    [/conversations/<conversationId>/participants/<userId>] under the
    application's base URL, whose body is [{access, notify}] taken from the
    inbound body and nothing else; when the upstream answers 2xx, the route
    relays the answer's body with status 200. *)
Theorem put_participant_forwards (cfg : config) (up : upstream)
    (req : express_request) :
  let conversationId := obj_get (params req) "conversationId" in
  let userId := obj_get (params req) "userId" in
  let keyType := obj_get (query req) "keyType" in
  configured cfg keyType ->
  exists r,
    snd (put_participant cfg up req) = [r]
    /\ req_method r = VStr "PUT"
    /\ req_url r
       = base_url ++ to_string (appIdToUse cfg (default_param keyType (VStr "dev")))
         ++ "/conversations/" ++ to_string conversationId
         ++ "/participants/" ++ to_string userId
    /\ req_data r = VObj [("access", obj_get (body req) "access");
                          ("notify", obj_get (body req) "notify")]
    /\ req_content_type r = "application/json"
    /\ generateToken cfg (clock up 0) keyType = Return (req_bearer r)
    /\ forall resp,
         answer up 0 r = Reply resp ->
         (200 <= status resp < 300)%Z ->
         fst (put_participant cfg up req) = mkRes 200 (Http.data resp).
Proof.
  intros conversationId userId keyType C.
  destruct (generateToken_configured cfg (clock up 0) keyType C) as [tok Ht].
  unfold put_participant, callTalkJSApi.
  fold conversationId userId keyType.
  rewrite generateToken_default, Ht.
  match goal with
  | |- context [axios up 0 ?r] => exists r; set (r0 := r)
  end.
  destruct (axios up 0 r0) as [response|error] eqn:A; simpl;
    repeat (split; [reflexivity|]).
  - intros resp Ha Hs. unfold axios in A. rewrite Ha in A.
    assert (E : ((200 <=? status resp) && (status resp <? 300))%Z = true).
    { apply andb_true_iff. split; [apply Z.leb_le | apply Z.ltb_lt]; lia. }
    rewrite E in A. injection A as <-. reflexivity.
  - intros resp Ha Hs. unfold axios in A. rewrite Ha in A.
    assert (E : ((200 <=? status resp) && (status resp <? 300))%Z = true).
    { apply andb_true_iff. split; [apply Z.leb_le | apply Z.ltb_lt]; lia. }
    rewrite E in A. discriminate.
Qed.

Lemma put_participant_forwards_witness :
  exists r,
    snd (put_participant both_configured participant_updated participant_request)
    = [r]
    /\ req_method r = VStr "PUT"
    /\ req_url r = "https://api.talkjs.com/v1/tDevApp/conversations/c1/participants/u1"
    /\ req_data r = VObj [("access", VStr "ReadWrite"); ("notify", VBool true)]
    /\ fst (put_participant both_configured participant_updated participant_request)
       = mkRes 200 (VObj [("ok", VBool true)]).
Proof.
  assert (C : configured both_configured (obj_get (query participant_request) "keyType")).
  { intros [[H|H]|[H|H]]; discriminate. }
  destruct (put_participant_forwards both_configured participant_updated
              participant_request C)
    as (r & Hs & Hm & Hu & Hd & _ & _ & Hr).
  exists r. split; [exact Hs|]. split; [exact Hm|]. split; [exact Hu|].
  split; [exact Hd|].
  apply (Hr (mkResponse 200 (VObj [("ok", VBool true)]))).
  - reflexivity.
  - simpl. lia.
Defined.

(** C9 does not hold for [GET /users]: when the credentials of the selected
    environment are missing, the route answers 200 with an empty user list
    and sends nothing; the configuration error is caught inside
    [fetchAllUsers] and never reaches the handler. *)
Theorem get_users_without_credentials (cfg : config) (up : upstream)
    (req : express_request) (fuel : nat) :
  ~ configured cfg (obj_get (query req) "keyType") ->
  get_users cfg up (S fuel) req
  = Some (mkRes 200 (VObj [("users", VArr [])]), []).
Proof.
  intro N. unfold get_users, fetchAllUsers.
  set (kt := default_param (js_or (obj_get (query req) "keyType") (VStr "dev"))
                           (VStr "dev")).
  assert (Nk : ~ configured cfg kt).
  { intro C. apply N. apply configured_js_or. exact C. }
  cbn [while_morePages]. unfold loop_body, fetchUsersPage. simpl sent.
  rewrite generateToken_default.
  rewrite (generateToken_not_configured cfg _ kt Nk). reflexivity.
Qed.

Lemma get_users_without_credentials_witness :
  get_users no_credentials three_pages 1 (mkReq [] [] [])
  = Some (mkRes 200 (VObj [("users", VArr [])]), []).
Proof.
  apply (get_users_without_credentials no_credentials three_pages (mkReq [] [] []) 0).
  intro C. apply C. left. left. reflexivity.
Defined.

(** The routes that go through [callTalkJSApi] alone do surface the
    configuration error, here for [GET /users/:userId/conversations]. *)
Lemma get_user_conversations_without_credentials (cfg : config) (up : upstream)
    (req : express_request) :
  ~ configured cfg (obj_get (query req) "keyType") ->
  get_user_conversations cfg up req
  = (mkRes 500 (VObj [("error", VStr (message
                                        (config_error (obj_get (query req) "keyType"))));
                      ("details", VUndefined)]), []).
Proof.
  intro N. unfold get_user_conversations.
  destruct (callTalkJSApi_credentials cfg up 0
              ("/users/" ++ to_string (obj_get (params req) "userId")
               ++ "/conversations")
              (VStr "GET") (obj_get (query req) "keyType") VUndefined)
    as (_ & _ & E).
  rewrite (E N). reflexivity.
Qed.

(** * Further properties of the service and the routes *)

(** ** [callTalkJSApi] *)

Lemma minted_token_times (cfg : config) (now : Z) (sel : jsval) (tok : token) :
  generateToken cfg now sel = Return tok ->
  iat (payload tok) = now /\ exp (payload tok) = (now + 30)%Z.
Proof.
  intro E. pose proof (generateToken_cases cfg now sel) as H. cbv zeta in H.
  destruct (environment_credentials cfg (default_param sel (VStr "dev")))
    as [[a|] [s|]]; try congruence.
  destruct H as [(_ & _ & E')|(_ & E')]; [|congruence].
  rewrite E in E'. injection E' as ->. split; reflexivity.
Qed.

Lemma axios_cases (up : upstream) (k : nat) (req : request) :
  match answer up k req with
  | Reply resp =>
      if is_2xx resp then axios up k req = Return resp
      else axios up k req
           = Throw (mkError ("Request failed with status code "
                             ++ string_of_Z (status resp)) (Some resp))
  | NoReply msg => axios up k req = Throw (Error msg)
  end.
Proof.
  unfold axios, is_2xx. destruct (answer up k req) as [resp|msg]; [|reflexivity].
  destruct ((200 <=? status resp) && (status resp <? 300))%Z; reflexivity.
Qed.

Lemma callTalkJSApi_configured (cfg : config) (up : upstream) (k : nat)
    (endpoint : string) (method sel data : jsval) :
  configured cfg sel ->
  exists tok,
    generateToken cfg (clock up k) sel = Return tok
    /\ callTalkJSApi cfg up k endpoint method sel data
       = (match axios up k (api_request cfg endpoint method sel data tok) with
          | Return response => Return (Http.data response)
          | Throw error => Throw error
          end,
          [api_request cfg endpoint method sel data tok]).
Proof.
  intro C. destruct (generateToken_configured cfg (clock up k) sel C) as [tok Ht].
  exists tok. split; [exact Ht|].
  unfold callTalkJSApi. rewrite generateToken_default, Ht.
  fold (api_request cfg endpoint method sel data tok).
  destruct (axios up k _); reflexivity.
Qed.

(** X1: with the environment configured, [callTalkJSApi] sends exactly one
    request, carrying a token minted for that call, and its outcome is the
    upstream's answer: the body of a 2xx answer is returned; an answer that
    is neither 2xx nor a redirect is thrown as an error that carries the
    answer's status and body; a transport failure is thrown with no answer
    attached. *)
Theorem callTalkJSApi_outcome (cfg : config) (up : upstream) (k : nat)
    (endpoint : string) (method sel data : jsval) :
  configured cfg sel ->
  exists req,
    snd (callTalkJSApi cfg up k endpoint method sel data) = [req]
    /\ generateToken cfg (clock up k) sel = Return (req_bearer req)
    /\ iat (payload (req_bearer req)) = clock up k
    /\ match answer up k req with
       | Reply resp =>
           if is_2xx resp
           then fst (callTalkJSApi cfg up k endpoint method sel data)
                = Return (Http.data resp)
           else is_redirect resp = false ->
                exists error,
                  fst (callTalkJSApi cfg up k endpoint method sel data)
                  = Throw error
                  /\ response_status error = VNum (status resp)
                  /\ response_data error = Http.data resp
       | NoReply msg =>
           fst (callTalkJSApi cfg up k endpoint method sel data)
           = Throw (Error msg)
           /\ response_status (Error msg) = VUndefined
       end.
Proof.
  intro C.
  destruct (callTalkJSApi_configured cfg up k endpoint method sel data C)
    as (tok & Ht & E).
  exists (api_request cfg endpoint method sel data tok). rewrite E. simpl.
  split; [reflexivity|]. split; [exact Ht|]. split.
  - destruct (minted_token_times cfg (clock up k) sel tok Ht) as [H _].
    exact H.
  - pose proof (axios_cases up k (api_request cfg endpoint method sel data tok)) as A.
    destruct (answer up k _) as [resp|msg].
    + destruct (is_2xx resp); rewrite A; [reflexivity|].
      intros _. eexists. split; [reflexivity|]. split; reflexivity.
    + rewrite A. split; reflexivity.
Qed.

Lemma callTalkJSApi_outcome_witness :
  exists req,
    snd (callTalkJSApi both_configured conversation_missing 0
           "/conversations/c42" VUndefined (VStr "prod") VUndefined) = [req]
    /\ iat (payload (req_bearer req)) = 1700000000%Z.
Proof.
  assert (C : configured both_configured (VStr "prod")) by solve_configured.
  destruct (callTalkJSApi_outcome both_configured conversation_missing 0
              "/conversations/c42" VUndefined (VStr "prod") VUndefined C)
    as (req & Hs & _ & Hi & _).
  exists req. split; [exact Hs | exact Hi].
Defined.

Lemma configured_dec (cfg : config) (sel : jsval) :
  {configured cfg sel} + {~ configured cfg sel}.
Proof.
  unfold configured.
  destruct (unset_dec (fst (environment_credentials cfg
                              (default_param sel (VStr "dev"))))) as [U|N1].
  - right. intro N. apply N. left. exact U.
  - destruct (unset_dec (snd (environment_credentials cfg
                                (default_param sel (VStr "dev"))))) as [U|N2].
    + right. intro N. apply N. right. exact U.
    + left. intros [U|U]; contradiction.
Qed.

(** X2: [callTalkJSApi] contacts the upstream if and only if both credentials of
    the selected environment are set: it then sends one request; otherwise it
    sends none and throws the configuration error. *)
Theorem callTalkJSApi_sends_iff_configured (cfg : config) (up : upstream)
    (k : nat) (endpoint : string) (method sel data : jsval) :
  (configured cfg sel
   <-> List.length (snd (callTalkJSApi cfg up k endpoint method sel data)) = 1)
  /\ (~ configured cfg sel
      <-> callTalkJSApi cfg up k endpoint method sel data
          = (Throw (config_error sel), [])).
Proof.
  destruct (callTalkJSApi_credentials cfg up k endpoint method sel data)
    as (_ & L & E).
  destruct (configured_dec cfg sel) as [C|N].
  - split; split; try tauto.
    intro H. rewrite H in L. specialize (L C). discriminate.
  - split; split; try tauto.
    intro H. rewrite (E N) in H. discriminate.
Qed.

(** ** [fetchUsersPage] *)

(** X3: [fetchUsersPage] returns exactly when a token could be minted and the
    upstream answered the page request with status 200 and a body whose
    [data] member is neither [undefined] nor [null]; it then returns that
    member as it is, array or not. *)
Theorem fetchUsersPage_returns_iff (cfg : config) (up : upstream) (k : nat)
    (c sel users : jsval) :
  fst (fetchUsersPage cfg up k limit c sel) = Return users <->
  exists tok resp,
    generateToken cfg (clock up k) sel = Return tok
    /\ answer up k (users_request cfg sel limit c tok) = Reply resp
    /\ status resp = 200%Z
    /\ get_prop (data resp) "data" = Return users
    /\ users <> VUndefined /\ users <> VNull.
Proof.
  split.
  - unfold fetchUsersPage. rewrite generateToken_default.
    destruct (generateToken cfg (clock up k) sel) as [tok|e] eqn:Ht;
      [|simpl; discriminate].
    fold (users_request cfg sel limit c tok). unfold axios.
    destruct (answer up k (users_request cfg sel limit c tok)) as [resp|msg] eqn:A;
      [|simpl; discriminate].
    destruct ((200 <=? status resp) && (status resp <? 300))%Z;
      [|simpl; discriminate].
    destruct (Z.eqb_spec (status resp) 200) as [S|S]; [|simpl; discriminate].
    destruct (get_prop (data resp) "data") as [u|e] eqn:G; [|simpl; discriminate].
    destruct u; simpl; try discriminate;
      intro H; injection H as <-;
      exists tok, resp; repeat split; try assumption; discriminate.
  - intros (tok & resp & Ht & A & S & G & N1 & N2).
    unfold fetchUsersPage. rewrite generateToken_default, Ht.
    fold (users_request cfg sel limit c tok). unfold axios. rewrite A.
    destruct resp as [st body]. simpl in S, G. subst st. simpl.
    rewrite G. destruct users; try congruence; reflexivity.
Qed.

(** X4: a 2xx answer other than 200 is a failure for [fetchUsersPage]: it throws
    a plain error that names the status and carries no upstream answer. *)
Theorem fetchUsersPage_rejects_other_2xx (cfg : config) (up : upstream)
    (k : nat) (c sel : jsval) (tok : token) (resp : http_response) :
  generateToken cfg (clock up k) sel = Return tok ->
  answer up k (users_request cfg sel limit c tok) = Reply resp ->
  is_2xx resp = true ->
  status resp <> 200%Z ->
  fetchUsersPage cfg up k limit c sel
  = (Throw (Error ("Failed to fetch users page, status: "
                   ++ string_of_Z (status resp))),
     [users_request cfg sel limit c tok]).
Proof.
  intros Ht A S2 S. unfold fetchUsersPage. rewrite generateToken_default, Ht.
  fold (users_request cfg sel limit c tok). unfold axios. rewrite A.
  unfold is_2xx in S2. rewrite S2.
  apply Z.eqb_neq in S. rewrite S. reflexivity.
Qed.

Lemma fetchUsersPage_rejects_other_2xx_witness :
  fetchUsersPage both_configured no_content 0 limit VNull VUndefined
  = (Throw (Error "Failed to fetch users page, status: 204"),
     [users_request both_configured VUndefined limit VNull (dev_token_at 0)]).
Proof.
  apply (fetchUsersPage_rejects_other_2xx both_configured no_content 0 VNull
           VUndefined (dev_token_at 0) (mkResponse 204 (VStr ""))).
  - reflexivity.
  - reflexivity.
  - reflexivity.
  - simpl. lia.
Defined.

(** ** [fetchAllUsers] *)

Section Pagination.

Variable cfg : config.
Variable up : upstream.
Variable sel : jsval.
Hypothesis Hcfg : configured cfg sel.

(** Full pages are consumed one pass each. *)
Lemma while_through_full_pages :
  forall (pages : list (list jsval)) (st : loop_state),
    (forall i p, nth_error pages i = Some p ->
                 forall req, answer up (List.length (sent st) + i) req
                             = page_reply p) ->
    Forall full_page_of pages ->
    exists st_n,
      allUsers st_n = (allUsers st ++ List.concat pages)%list
      /\ List.length (sent st_n) = List.length (sent st) + List.length pages
      /\ forall f, while_morePages (List.length pages + f) cfg up sel st
                   = while_morePages f cfg up sel st_n.
Proof.
  induction pages as [|p ps IH]; intros st Ha Hf.
  - exists st. simpl. rewrite app_nil_r. split; [reflexivity|].
    split; [lia | reflexivity].
  - inversion Hf as [|p' ps' [Hl (id & Hg)] Hps]; subst.
    destruct (loop_body_full_page cfg up sel Hcfg st p id) as (req & _ & B);
      try assumption.
    { intro r. rewrite <- (Nat.add_0_r (List.length (sent st))).
      apply (Ha 0 p). reflexivity. }
    destruct (IH (mkLoop (allUsers st ++ p) id (sent st ++ [req])))
      as (st_n & HA & HL & HW).
    { intros i q Hq r. simpl. rewrite length_app. simpl.
      replace (List.length (sent st) + 1 + i)
        with (List.length (sent st) + S i) by lia.
      apply (Ha (S i) q). exact Hq. }
    { exact Hps. }
    exists st_n. simpl in HA, HL. rewrite length_app in HL. simpl in HL.
    split; [|split].
    + rewrite HA. simpl. rewrite <- app_assoc. reflexivity.
    + simpl. lia.
    + intro f. simpl. rewrite B. apply HW.
Qed.

Lemma while_sent_grows (fuel : nat) :
  forall st st',
    while_morePages fuel cfg up sel st = Some st' ->
    exists more, sent st' = (sent st ++ more)%list.
Proof.
  induction fuel as [|fuel IH]; intros st st' H; [discriminate|].
  cbn [while_morePages] in H.
  pose proof (loop_body_sent cfg up sel st) as Hs.
  destruct (loop_body cfg up sel st) as [st1 more]; simpl in Hs.
  destruct more.
  - destruct (IH _ _ H) as [l Hl]. rewrite Hl, Hs, <- app_assoc.
    eexists; reflexivity.
  - injection H as <-. rewrite Hs. eexists; reflexivity.
Qed.

Lemma while_request_shape (fuel : nat) :
  forall st st',
    (forall k r, nth_error (sent st) k = Some r ->
                 page_request_shape cfg up sel k r) ->
    while_morePages fuel cfg up sel st = Some st' ->
    forall k r, nth_error (sent st') k = Some r ->
                page_request_shape cfg up sel k r.
Proof.
  induction fuel as [|fuel IH]; intros st st' Hst H; [discriminate|].
  cbn [while_morePages] in H.
  pose proof (loop_body_sent cfg up sel st) as Hs.
  destruct (loop_body cfg up sel st) as [st1 more]; simpl in Hs.
  assert (H1 : forall k r, nth_error (sent st1) k = Some r ->
                           page_request_shape cfg up sel k r).
  { intros k r Hk. rewrite Hs in Hk. unfold page_request in Hk.
    destruct (fetchUsersPage_sent cfg up (List.length (sent st)) limit
                (startingAfter st) sel) as [(e & _ & F)|(tok & o & Ht & F)];
      rewrite F in Hk; simpl in Hk.
    - rewrite app_nil_r in Hk. apply Hst. exact Hk.
    - destruct (Nat.lt_ge_cases k (List.length (sent st))) as [Lt|Ge].
      + rewrite nth_error_app1 in Hk by exact Lt. apply Hst. exact Hk.
      + rewrite nth_error_app2 in Hk by exact Ge.
        destruct (k - List.length (sent st)) as [|d] eqn:D.
        * simpl in Hk. injection Hk as <-.
          assert (k = List.length (sent st)) by lia. subst k.
          unfold page_request_shape, users_request. simpl.
          split; [reflexivity|]. split; [reflexivity|].
          split; [exact Ht|]. split.
          -- apply (minted_token_times cfg _ sel tok Ht).
          -- eexists. reflexivity.
        * simpl in Hk. destruct d; discriminate. }
  destruct more; [exact (IH _ _ H1 H) | injection H as <-; exact H1].
Qed.

End Pagination.

(** X5: any number of full pages followed by a short (or empty) page: the result
    is all the pages in upstream order, and one request is sent per page,
    none after the short one. *)
Theorem fetchAllUsers_full_pages_then_short (cfg : config) (up : upstream)
    (keyType : jsval) (pages : list (list jsval)) (final : list jsval) :
  configured cfg keyType ->
  (forall i p, nth_error pages i = Some p ->
               forall req, answer up i req = page_reply p) ->
  Forall full_page_of pages ->
  (forall req, answer up (List.length pages) req = page_reply final) ->
  (Z.of_nat (List.length final) < limit)%Z ->
  exists sent,
    List.length sent = List.length pages + 1
    /\ forall fuel, List.length pages < fuel ->
         fetchAllUsers fuel cfg up keyType
         = Some ((List.concat pages ++ final)%list, sent).
Proof.
  intros C Ha Hf Hl Hs.
  set (kt := default_param keyType (VStr "dev")).
  assert (Hkt : configured cfg kt) by (apply configured_default; exact C).
  destruct (while_through_full_pages cfg up kt Hkt pages (mkLoop [] VNull []))
    as (st_n & HA & HL & HW); [exact Ha | exact Hf |].
  simpl in HA, HL.
  destruct (loop_body_short_page cfg up kt Hkt st_n final)
    as (req & st' & _ & B & HA' & HS'); [rewrite HL; exact Hl | exact Hs |].
  exists (sent st'). split.
  - rewrite HS', length_app, HL. reflexivity.
  - intros fuel Hfuel. unfold fetchAllUsers. fold kt.
    replace fuel with (List.length pages + S (fuel - S (List.length pages)))
      by lia.
    rewrite HW. cbn [while_morePages]. rewrite B, HA', HA. reflexivity.
Qed.

Lemma fetchAllUsers_full_pages_then_short_witness :
  exists sent,
    List.length sent = 3
    /\ fetchAllUsers 3 both_configured three_pages (VStr "dev")
       = Some ((List.concat [users_from 0 100; users_from 100 100]
                ++ users_from 200 37)%list, sent).
Proof.
  destruct (fetchAllUsers_full_pages_then_short both_configured three_pages
              (VStr "dev") [users_from 0 100; users_from 100 100]
              (users_from 200 37))
    as (sent & Hl & Hr).
  - solve_configured.
  - intros i p H req. destruct i as [|[|i]]; simpl in H.
    + injection H as <-. reflexivity.
    + injection H as <-. reflexivity.
    + destruct i; discriminate.
  - repeat constructor; try (vm_compute; discriminate); eexists; reflexivity.
  - intro req. reflexivity.
  - vm_compute. reflexivity.
  - exists sent. split; [exact Hl | apply Hr; simpl; lia].
Defined.

(** X6: any number of full pages followed by a failing page request: the result
    is the pages fetched before the failure, in upstream order. *)
Theorem fetchAllUsers_full_pages_then_failure (cfg : config) (up : upstream)
    (keyType : jsval) (pages : list (list jsval)) :
  configured cfg keyType ->
  (forall i p, nth_error pages i = Some p ->
               forall req, answer up i req = page_reply p) ->
  Forall full_page_of pages ->
  (forall cursor, exists e,
      fst (fetchUsersPage cfg up (List.length pages) limit cursor keyType)
      = Throw e) ->
  exists sent,
    List.length sent = List.length pages + 1
    /\ forall fuel, List.length pages < fuel ->
         fetchAllUsers fuel cfg up keyType = Some (List.concat pages, sent).
Proof.
  intros C Ha Hf Hfail.
  set (kt := default_param keyType (VStr "dev")).
  assert (Hkt : configured cfg kt) by (apply configured_default; exact C).
  destruct (while_through_full_pages cfg up kt Hkt pages (mkLoop [] VNull []))
    as (st_n & HA & HL & HW); [exact Ha | exact Hf |].
  simpl in HA, HL.
  assert (P : exists e, fst (page_request cfg up kt st_n) = Throw e).
  { unfold page_request, kt. rewrite fetchUsersPage_default, HL. apply Hfail. }
  destruct P as [e P].
  pose proof (loop_body_throw cfg up kt st_n e P) as B.
  exists (sent st_n ++ snd (page_request cfg up kt st_n))%list. split.
  - rewrite length_app, HL. f_equal. unfold page_request.
    destruct (fetchUsersPage_sent cfg up (List.length (sent st_n)) limit
                (startingAfter st_n) kt) as [(e' & Ht & _)|(t & o & _ & ->)];
      [|reflexivity].
    destruct (generateToken_configured cfg
                (clock up (List.length (sent st_n))) kt Hkt) as [t Ht'].
    congruence.
  - intros fuel Hfuel. unfold fetchAllUsers. fold kt.
    replace fuel with (List.length pages + S (fuel - S (List.length pages)))
      by lia.
    rewrite HW. cbn [while_morePages]. rewrite B. simpl. rewrite HA.
    reflexivity.
Qed.

Lemma fetchAllUsers_full_pages_then_failure_witness :
  exists sent,
    List.length sent = 2
    /\ fetchAllUsers 2 both_configured second_page_fails VUndefined
       = Some (List.concat [users_from 0 100], sent).
Proof.
  destruct (fetchAllUsers_full_pages_then_failure both_configured
              second_page_fails VUndefined [users_from 0 100])
    as (sent & Hl & Hr).
  - solve_configured.
  - intros i p H req. destruct i as [|i]; simpl in H.
    + injection H as <-. reflexivity.
    + destruct i; discriminate.
  - repeat constructor; try (vm_compute; discriminate); eexists; reflexivity.
  - intro cursor. eexists. reflexivity.
  - exists sent. split; [exact Hl | apply Hr; simpl; lia].
Defined.

(** X7: against an upstream that answers every page request with a full page,
    [fetchAllUsers] never returns: the loop is still running after any
    number of passes. *)
Theorem fetchAllUsers_runs_forever (cfg : config) (up : upstream)
    (keyType : jsval) :
  configured cfg keyType ->
  (forall k, exists p, full_page_of p
                       /\ forall req, answer up k req = page_reply p) ->
  forall fuel, fetchAllUsers fuel cfg up keyType = None.
Proof.
  intros C Hfull fuel.
  set (kt := default_param keyType (VStr "dev")).
  assert (Hkt : configured cfg kt) by (apply configured_default; exact C).
  assert (W : forall f st, while_morePages f cfg up kt st = None).
  { induction f as [|f IH]; intro st; [reflexivity|].
    destruct (Hfull (List.length (sent st))) as (p & [Hl (id & Hg)] & Ha).
    destruct (loop_body_full_page cfg up kt Hkt st p id Ha Hl Hg)
      as (req & _ & B).
    cbn [while_morePages]. rewrite B. apply IH. }
  unfold fetchAllUsers. fold kt. rewrite W. reflexivity.
Qed.

Lemma fetchAllUsers_runs_forever_witness :
  fetchAllUsers 1000 both_configured endless_pages VUndefined = None.
Proof.
  apply (fetchAllUsers_runs_forever both_configured endless_pages VUndefined).
  - solve_configured.
  - intro k. exists (users_from 0 100). split.
    + split; [vm_compute; discriminate | eexists; reflexivity].
    + intro req. reflexivity.
Defined.

(** X8: every request that [fetchAllUsers] sends is a GET without body for the
    users listing of the selected application, and the [k]-th one carries a
    token minted for it at the time of that request: no token is reused
    across pages. *)
Theorem fetchAllUsers_request_shape (cfg : config) (up : upstream)
    (keyType : jsval) (fuel : nat) (users : list jsval) (reqs : list request)
    (k : nat) (r : request) :
  fetchAllUsers fuel cfg up keyType = Some (users, reqs) ->
  nth_error reqs k = Some r ->
  page_request_shape cfg up keyType k r.
Proof.
  unfold fetchAllUsers. set (kt := default_param keyType (VStr "dev")).
  destruct (while_morePages fuel cfg up kt (mkLoop [] VNull [])) as [st'|] eqn:W;
    [|discriminate].
  intros H Hk. injection H as _ <-.
  assert (S0 : forall k r, nth_error (sent (mkLoop [] VNull [])) k = Some r ->
                           page_request_shape cfg up kt k r).
  { intros k0 r0 H0. destruct k0; discriminate. }
  pose proof (while_request_shape cfg up kt fuel _ _ S0 W k r Hk)
    as (Hm & Hd & Ht & Hi & Hu).
  unfold page_request_shape. unfold kt in Ht, Hu.
  rewrite generateToken_default in Ht.
  rewrite default_param_idem in Hu by discriminate.
  repeat split; assumption.
Qed.

Lemma fetchAllUsers_request_shape_witness :
  page_request_shape both_configured one_short_page VUndefined 0
    (users_request both_configured VUndefined limit VNull (dev_token_at 0)).
Proof.
  apply (fetchAllUsers_request_shape both_configured one_short_page VUndefined
           1 (users_from 0 2)
           [users_request both_configured VUndefined limit VNull (dev_token_at 0)]
           0).
  - reflexivity.
  - reflexivity.
Defined.




(** X10: a page whose last record is [null] (or [undefined]) ends the pagination
    even when the page is full: its records are kept, no further page is
    requested, and nothing is reported. *)
Theorem fetchAllUsers_stops_at_unreadable_record (cfg : config) (up : upstream)
    (keyType : jsval) (page : list jsval) (e : js_error) :
  configured cfg keyType ->
  (forall req, answer up 0 req = page_reply page) ->
  page <> [] ->
  get_prop (nth (List.length page - 1) page VUndefined) "id" = Throw e ->
  exists req,
    forall fuel, 0 < fuel ->
      fetchAllUsers fuel cfg up keyType = Some (page, [req]).
Proof.
  intros C Ha Hne Hg.
  set (kt := default_param keyType (VStr "dev")).
  assert (Hkt : configured cfg kt) by (apply configured_default; exact C).
  destruct (fetchUsersPage_page cfg up kt Hkt 0 VNull page Ha) as (req & _ & F).
  exists req. intros fuel Hf. destruct fuel as [|fuel]; [lia|].
  unfold fetchAllUsers. fold kt. cbn [while_morePages].
  unfold loop_body. cbn [sent startingAfter allUsers List.length].
  rewrite F. cbn [records_of].
  assert (E : (0 <? Z.of_nat (List.length page))%Z = true).
  { apply Z.ltb_lt. destruct page; [congruence | simpl; lia]. }
  rewrite E, Hg. reflexivity.
Qed.

Lemma fetchAllUsers_stops_at_unreadable_record_witness :
  exists req,
    fetchAllUsers 5 both_configured
      (scripted [page_reply null_tail_page; page_reply (users_from 101 3)])
      VUndefined
    = Some (null_tail_page, [req]).
Proof.
  destruct (fetchAllUsers_stops_at_unreadable_record both_configured
              (scripted [page_reply null_tail_page; page_reply (users_from 101 3)])
              VUndefined null_tail_page
              (Error "Cannot read properties of null (reading 'id')"))
    as (req & H).
  - solve_configured.
  - intro req. reflexivity.
  - discriminate.
  - reflexivity.
  - exists req. apply H. lia.
Defined.

Lemma users_url_falsy (cfg : config) (kt : jsval) (l : Z) (c : jsval) :
  truthy c = false -> users_url cfg kt l c = users_url cfg kt l VNull.
Proof. intro H. unfold users_url. rewrite H. reflexivity. Qed.

(** [fetchUsersPage] on a well-formed page that the upstream serves for the
    URL it is asked. *)
Lemma fetchUsersPage_page_by_url (cfg : config) (up : upstream) (sel : jsval)
    (k : nat) (c : jsval) (users : list jsval) :
  configured cfg sel ->
  (forall r, req_url r = users_url cfg (default_param sel (VStr "dev")) limit c ->
             answer up k r = page_reply users) ->
  exists req,
    fetchUsersPage cfg up k limit c sel = (Return (VArr users), [req]).
Proof.
  intros C Ha.
  destruct (generateToken_configured cfg (clock up k) sel C) as [tok Ht].
  exists (users_request cfg sel limit c tok).
  unfold fetchUsersPage. rewrite generateToken_default, Ht.
  fold (users_request cfg sel limit c tok).
  unfold axios. rewrite Ha; [reflexivity|].
  apply users_url_default.
Qed.

(** X11: when the last record of a full page has no usable [id] (absent, empty,
    [null], [0] or [false]), the next request carries no cursor and asks
    for the first page again: against an upstream that serves that page
    whenever the listing is asked for without cursor, [fetchAllUsers] never
    returns. *)
Theorem fetchAllUsers_restarts_without_id (cfg : config) (up : upstream)
    (keyType : jsval) (page : list jsval) (id : jsval) :
  configured cfg keyType ->
  (forall k r,
      req_url r = users_url cfg (default_param keyType (VStr "dev")) limit VNull ->
      answer up k r = page_reply page) ->
  (limit <= Z.of_nat (List.length page))%Z ->
  get_prop (nth (List.length page - 1) page VUndefined) "id" = Return id ->
  truthy id = false ->
  forall fuel, fetchAllUsers fuel cfg up keyType = None.
Proof.
  intros C Ha Hl Hg Hid fuel.
  set (kt := default_param keyType (VStr "dev")) in *.
  assert (Hkt : configured cfg kt) by (apply configured_default; exact C).
  assert (Hidem : default_param kt (VStr "dev") = kt)
    by (apply default_param_idem; discriminate).
  assert (W : forall f st, truthy (startingAfter st) = false ->
                           while_morePages f cfg up kt st = None).
  { induction f as [|f IH]; intros st Hc; [reflexivity|].
    destruct (fetchUsersPage_page_by_url cfg up kt (List.length (sent st))
                (startingAfter st) page Hkt) as (req & F).
    { intros r Hr. apply Ha. rewrite Hr, Hidem.
      apply users_url_falsy. exact Hc. }
    cbn [while_morePages]. unfold loop_body. rewrite F. cbn [records_of].
    assert (E1 : (0 <? Z.of_nat (List.length page))%Z = true)
      by (apply Z.ltb_lt; unfold limit in Hl; lia).
    assert (E2 : (Z.of_nat (List.length page) <? limit)%Z = false)
      by (apply Z.ltb_ge; exact Hl).
    rewrite E1, Hg, E2. apply IH. exact Hid. }
  unfold fetchAllUsers. fold kt. rewrite W; reflexivity.
Qed.

Lemma fetchAllUsers_restarts_without_id_witness :
  fetchAllUsers 50 both_configured anonymous_tail VUndefined = None.
Proof.
  apply (fetchAllUsers_restarts_without_id both_configured anonymous_tail
           VUndefined anonymous_tail_page VUndefined).
  - solve_configured.
  - intros k r Hr. simpl. rewrite Hr. reflexivity.
  - vm_compute. discriminate.
  - reflexivity.
  - reflexivity.
Defined.

(** ** The routes: requests and answers *)

Lemma callTalkJSApi_by_answer (cfg : config) (up : upstream) (k : nat)
    (endpoint : string) (method sel data : jsval) :
  configured cfg sel ->
  exists tok,
    generateToken cfg (clock up k) sel = Return tok
    /\ callTalkJSApi cfg up k endpoint method sel data
       = (call_result (answer up k (api_request cfg endpoint method sel data tok)),
          [api_request cfg endpoint method sel data tok]).
Proof.
  intro C.
  destruct (callTalkJSApi_configured cfg up k endpoint method sel data C)
    as (tok & Ht & E).
  exists tok. split; [exact Ht|]. rewrite E. f_equal.
  pose proof (axios_cases up k (api_request cfg endpoint method sel data tok)) as A.
  unfold call_result, http_error.
  destruct (answer up k _) as [resp|msg].
  - destruct (is_2xx resp); rewrite A; reflexivity.
  - rewrite A. reflexivity.
Qed.

Lemma status_or_http_error (resp : http_response) :
  status_or (http_error resp) 500
  = if (status resp =? 0)%Z then 500%Z else status resp.
Proof.
  unfold status_or, js_or, response_status, http_error. simpl.
  destruct (status resp =? 0)%Z; reflexivity.
Qed.

Lemma status_is_404_http_error (resp : http_response) :
  status_is_404 (http_error resp) = (status resp =? 404)%Z.
Proof. reflexivity. Qed.

(** X12: [DELETE /conversations/:conversationId/participants/:userId], with the
    environment configured, sends exactly one upstream request: a DELETE to
    the participant's path with a [null] body; a 2xx answer is relayed with
    status 200 whatever its own status was, an answer that is neither 2xx
    nor a redirect with its status and body, and a transport failure as a
    500. *)
Theorem delete_participant_forwards (cfg : config) (up : upstream)
    (req : express_request) :
  let conversationId := obj_get (params req) "conversationId" in
  let userId := obj_get (params req) "userId" in
  let keyType := obj_get (query req) "keyType" in
  configured cfg keyType ->
  exists r,
    snd (delete_participant cfg up req) = [r]
    /\ req_method r = VStr "DELETE"
    /\ req_url r
       = base_url ++ to_string (appIdToUse cfg (default_param keyType (VStr "dev")))
         ++ "/conversations/" ++ to_string conversationId
         ++ "/participants/" ++ to_string userId
    /\ req_data r = VNull
    /\ match answer up 0 r with
       | Reply resp =>
           if is_2xx resp
           then fst (delete_participant cfg up req) = mkRes 200 (Http.data resp)
           else is_redirect resp = false ->
                fst (delete_participant cfg up req) = relayed_error resp
       | NoReply msg => fst (delete_participant cfg up req) = plain_error msg
       end.
Proof.
  intros conversationId userId keyType C.
  unfold delete_participant. fold conversationId userId keyType.
  destruct (callTalkJSApi_by_answer cfg up 0
              (participant_endpoint conversationId userId)
              (VStr "DELETE") keyType VUndefined C) as (tok & _ & E).
  rewrite E. eexists. split; [reflexivity|]. simpl.
  repeat (split; [reflexivity|]).
  destruct (answer up 0 _) as [resp|msg]; simpl; [|reflexivity].
  destruct (is_2xx resp); simpl; [reflexivity|]. intros _.
  unfold relayed_error. rewrite <- status_or_http_error. reflexivity.
Qed.

Lemma delete_participant_forwards_witness :
  exists r,
    snd (delete_participant both_configured service_down participant_request) = [r]
    /\ req_method r = VStr "DELETE"
    /\ req_data r = VNull
    /\ fst (delete_participant both_configured service_down participant_request)
       = mkRes 503 (VObj [("error", VStr "Request failed with status code 503");
                          ("details", VObj [("errorCode", VStr "UNAVAILABLE")])]).
Proof.
  destruct (delete_participant_forwards both_configured service_down
              participant_request)
    as (r & Hs & Hm & Hu & Hd & Hr); [solve_configured|].
  exists r. split; [exact Hs|]. split; [exact Hm|]. split; [exact Hd|].
  injection Hs as <-. apply Hr. reflexivity.
Defined.

(** X13: [PUT /conversations/:conversationId/participants/:userId] relays an
    upstream failure: an answer that is neither 2xx nor a redirect with its
    status and, as details, its body; a transport failure as a 500 without
    details. *)
Theorem put_participant_relays_failures (cfg : config) (up : upstream)
    (req : express_request) :
  configured cfg (obj_get (query req) "keyType") ->
  exists r,
    snd (put_participant cfg up req) = [r]
    /\ (forall resp, answer up 0 r = Reply resp -> is_2xx resp = false ->
          is_redirect resp = false ->
          fst (put_participant cfg up req) = relayed_error resp)
    /\ (forall msg, answer up 0 r = NoReply msg ->
          fst (put_participant cfg up req) = plain_error msg).
Proof.
  intro C. unfold put_participant.
  destruct (callTalkJSApi_by_answer cfg up 0
              (participant_endpoint (obj_get (params req) "conversationId")
                                    (obj_get (params req) "userId"))
              (VStr "PUT") (obj_get (query req) "keyType")
              (VObj [("access", obj_get (body req) "access");
                     ("notify", obj_get (body req) "notify")]) C)
    as (tok & _ & E).
  rewrite E. eexists. split; [reflexivity|]. simpl. split.
  - intros resp Ha H2 _. rewrite Ha. simpl. rewrite H2. simpl.
    unfold relayed_error. rewrite <- status_or_http_error. reflexivity.
  - intros msg Ha. rewrite Ha. reflexivity.
Qed.

Lemma put_participant_relays_failures_witness :
  fst (put_participant both_configured service_down participant_request)
  = mkRes 503 (VObj [("error", VStr "Request failed with status code 503");
                     ("details", VObj [("errorCode", VStr "UNAVAILABLE")])]).
Proof.
  destruct (put_participant_relays_failures both_configured service_down
              participant_request)
    as (r & Hs & Hr & _); [solve_configured|].
  injection Hs as <-.
  apply (Hr (mkResponse 503 (VObj [("errorCode", VStr "UNAVAILABLE")])));
    reflexivity.
Defined.

(** X14: [GET /users/:userId/conversations], with the environment configured,
    sends one GET for the user's conversations. A 2xx answer with an object
    body is answered with [{conversations}] holding the body's [data] member
    untouched, or an empty list when that member is missing or falsy; a 2xx
    answer with a [null] body ends in a 500; a 404 is answered with a
    not-found message naming the user and no details; any other answer that
    is neither 2xx nor a redirect is relayed with its status and body. *)
Theorem get_user_conversations_responses (cfg : config) (up : upstream)
    (req : express_request) :
  let userId := obj_get (params req) "userId" in
  let keyType := obj_get (query req) "keyType" in
  configured cfg keyType ->
  exists r,
    snd (get_user_conversations cfg up req) = [r]
    /\ req_method r = VStr "GET"
    /\ req_url r
       = base_url ++ to_string (appIdToUse cfg (default_param keyType (VStr "dev")))
         ++ "/users/" ++ to_string userId ++ "/conversations"
    /\ (forall resp fields,
          answer up 0 r = Reply resp -> is_2xx resp = true ->
          Http.data resp = VObj fields ->
          fst (get_user_conversations cfg up req)
          = mkRes 200 (VObj [("conversations",
                              js_or (obj_get fields "data") (VArr []))]))
    /\ (forall resp,
          answer up 0 r = Reply resp -> is_2xx resp = true ->
          Http.data resp = VNull ->
          res_status (fst (get_user_conversations cfg up req)) = 500%Z)
    /\ (forall resp,
          answer up 0 r = Reply resp -> status resp = 404%Z ->
          fst (get_user_conversations cfg up req)
          = mkRes 404 (VObj [("error",
                              VStr ("Conversations for user with ID "
                                    ++ to_string userId ++ " not found."))]))
    /\ (forall resp,
          answer up 0 r = Reply resp -> is_2xx resp = false ->
          is_redirect resp = false ->
          status resp <> 404%Z ->
          fst (get_user_conversations cfg up req) = relayed_error resp)
    /\ (forall msg,
          answer up 0 r = NoReply msg ->
          fst (get_user_conversations cfg up req) = plain_error msg).
Proof.
  intros userId keyType C. unfold get_user_conversations.
  fold userId keyType.
  destruct (callTalkJSApi_by_answer cfg up 0
              ("/users/" ++ to_string userId ++ "/conversations")
              (VStr "GET") keyType VUndefined C) as (tok & _ & E).
  rewrite E. eexists. split; [reflexivity|]. simpl.
  split; [reflexivity|]. split; [reflexivity|].
  split; [|split; [|split; [|split]]].
  - intros resp fields Ha H2 Hd. rewrite Ha. simpl. rewrite H2, Hd. reflexivity.
  - intros resp Ha H2 Hd. rewrite Ha. simpl. rewrite H2, Hd. reflexivity.
  - intros resp Ha Hs. rewrite Ha. simpl.
    assert (H2 : is_2xx resp = false) by (unfold is_2xx; rewrite Hs; reflexivity).
    rewrite H2. simpl. rewrite status_is_404_http_error, Hs. reflexivity.
  - intros resp Ha H2 _ Hs. rewrite Ha. simpl. rewrite H2. simpl.
    rewrite status_is_404_http_error.
    apply Z.eqb_neq in Hs. rewrite Hs.
    unfold relayed_error. rewrite <- status_or_http_error. reflexivity.
  - intros msg Ha. rewrite Ha. reflexivity.
Qed.

Lemma get_user_conversations_responses_witness :
  fst (get_user_conversations both_configured conversations_listed user_request)
  = mkRes 200
      (VObj [("conversations",
              VArr [VObj [("id", VStr "c1");
                          ("lastMessage", VObj [("id", VStr "m1")])];
                    VObj [("id", VStr "c2")]])]).
Proof.
  destruct (get_user_conversations_responses both_configured
              conversations_listed user_request)
    as (r & Hs & _ & _ & Hok & _); [solve_configured|].
  injection Hs as <-.
  apply (Hok (mkResponse 200
                (VObj [("data",
                        VArr [VObj [("id", VStr "c1");
                                    ("lastMessage", VObj [("id", VStr "m1")])];
                              VObj [("id", VStr "c2")]])]))
             [("data",
               VArr [VObj [("id", VStr "c1");
                           ("lastMessage", VObj [("id", VStr "m1")])];
                     VObj [("id", VStr "c2")]])]);
    reflexivity.
Defined.

(** X15: [GET /v1/:appId/users/:userId] uses its path segment [appId] only to
    pick the environment. With that environment configured it sends one GET
    for the user and answers with the upstream's body as it is; an answer
    that is neither 2xx nor a redirect is relayed with its status and body;
    a transport failure is
    answered with a 500 whose body has an [error] member only. Without
    credentials it sends nothing and answers 500 with the configuration
    error. *)
Theorem get_user_responses (cfg : config) (up : upstream)
    (req : express_request) :
  let appId := obj_get (params req) "appId" in
  let userId := obj_get (params req) "userId" in
  (configured cfg appId ->
   exists r,
     snd (get_user cfg up req) = [r]
     /\ req_method r = VStr "GET"
     /\ req_url r
        = base_url ++ to_string (appIdToUse cfg (default_param appId (VStr "dev")))
          ++ "/users/" ++ to_string userId
     /\ match answer up 0 r with
        | Reply resp =>
            if is_2xx resp
            then fst (get_user cfg up req) = mkRes 200 (Http.data resp)
            else is_redirect resp = false ->
                 fst (get_user cfg up req)
                 = if (status resp =? 0)%Z
                   then mkRes 500 (VObj [("error",
                                          VStr (message (http_error resp)))])
                   else relayed_error resp
        | NoReply msg =>
            fst (get_user cfg up req) = mkRes 500 (VObj [("error", VStr msg)])
        end)
  /\ (~ configured cfg appId ->
      get_user cfg up req
      = (mkRes 500 (VObj [("error", VStr (message (config_error appId)))]), [])).
Proof.
  intros appId userId. split.
  - intro C. unfold get_user. fold appId userId.
    destruct (callTalkJSApi_by_answer cfg up 0 ("/users/" ++ to_string userId)
                (VStr "GET") appId VUndefined C) as (tok & _ & E).
    rewrite E. eexists. split; [reflexivity|]. simpl.
    split; [reflexivity|]. split; [reflexivity|].
    destruct (answer up 0 _) as [resp|msg]; simpl; [|reflexivity].
    destruct (is_2xx resp); simpl; [reflexivity|]. intros _.
    unfold relayed_error. rewrite <- status_or_http_error.
    unfold status_or, js_or, response_status. simpl.
    destruct (status resp =? 0)%Z; reflexivity.
  - intro N. unfold get_user. fold appId userId.
    destruct (callTalkJSApi_credentials cfg up 0 ("/users/" ++ to_string userId)
                (VStr "GET") appId VUndefined) as (_ & _ & E).
    rewrite (E N). reflexivity.
Qed.

Lemma get_user_responses_witness :
  exists r,
    snd (get_user both_configured user_found user_request) = [r]
    /\ req_url r = "https://api.talkjs.com/v1/tProdApp/users/u7"
    /\ fst (get_user both_configured user_found user_request)
       = mkRes 200 (VObj [("id", VStr "u7"); ("name", VStr "Ana")]).
Proof.
  destruct (proj1 (get_user_responses both_configured user_found user_request))
    as (r & Hs & _ & Hu & Hr); [solve_configured|].
  exists r. split; [exact Hs|]. split; [exact Hu|].
  injection Hs as <-. exact Hr.
Defined.

(** ** The response models in the routes *)

Lemma obj_get_set_same (fields : list (string * jsval)) (k : string) (v : jsval) :
  obj_get (obj_set fields k v) k = v.
Proof.
  induction fields as [|[k' v'] r IH]; simpl.
  - rewrite String.eqb_refl. reflexivity.
  - destruct (String.eqb_spec k' k) as [->|N]; simpl.
    + rewrite String.eqb_refl. reflexivity.
    + apply String.eqb_neq in N. rewrite N. exact IH.
Qed.

Lemma obj_get_set_other (fields : list (string * jsval)) (k k' : string)
    (v : jsval) :
  k' <> k -> obj_get (obj_set fields k v) k' = obj_get fields k'.
Proof.
  intro N. induction fields as [|[k0 v0] r IH]; simpl.
  - destruct (String.eqb_spec k k'); [congruence | reflexivity].
  - destruct (String.eqb_spec k0 k) as [->|N0]; simpl.
    + destruct (String.eqb_spec k k'); [congruence | reflexivity].
    + destruct (String.eqb_spec k0 k'); [reflexivity | exact IH].
Qed.

(** X16: what the routes hand to the [Conversation] model for an upstream
    conversation object: the object's own members unchanged, except
    [lastMessage], which is [null] when the upstream has none (or a falsy
    one) and otherwise what the [Message] model makes of it. When [Message]
    throws, no conversation is built; a [null] conversation throws. *)
Theorem to_conversation_members
    (Message Conversation : jsval -> outcome jsval)
    (fields : list (string * jsval)) :
  let lm := obj_get fields "lastMessage" in
  (truthy lm = false ->
   exists arg,
     to_conversation Message Conversation (VObj fields) = Conversation (VObj arg)
     /\ obj_get arg "lastMessage" = VNull
     /\ forall k, k <> "lastMessage" -> obj_get arg k = obj_get fields k)
  /\ (forall m, truthy lm = true -> Message lm = Return m ->
      exists arg,
        to_conversation Message Conversation (VObj fields)
        = Conversation (VObj arg)
        /\ obj_get arg "lastMessage" = m
        /\ forall k, k <> "lastMessage" -> obj_get arg k = obj_get fields k)
  /\ (forall e, truthy lm = true -> Message lm = Throw e ->
      to_conversation Message Conversation (VObj fields) = Throw e)
  /\ (exists e, to_conversation Message Conversation VNull = Throw e).
Proof.
  intro lm. unfold to_conversation. simpl. fold lm.
  split; [|split; [|split]].
  - intros ->. simpl. eexists. split; [reflexivity|].
    split; [apply obj_get_set_same | intros k N; apply obj_get_set_other; exact N].
  - intros m -> ->. simpl. eexists. split; [reflexivity|].
    split; [apply obj_get_set_same | intros k N; apply obj_get_set_other; exact N].
  - intros e -> ->. reflexivity.
  - eexists. reflexivity.
Qed.

Lemma map_outcome_Forall2 (f : jsval -> outcome jsval) :
  forall l ys,
    Forall2 (fun x y => f x = Return y) l ys ->
    map_outcome f l = Return ys.
Proof.
  induction 1 as [|x y l ys Hx _ IH]; simpl; [reflexivity|].
  rewrite Hx. simpl. rewrite IH. reflexivity.
Qed.

Lemma map_outcome_throw (f : jsval -> outcome jsval) (x : jsval) (e : js_error) :
  forall pre post,
    Forall (fun v => exists y, f v = Return y) pre ->
    f x = Throw e ->
    map_outcome f (pre ++ x :: post) = Throw e.
Proof.
  induction pre as [|v pre IH]; intros post Hp Hx; simpl.
  - rewrite Hx. reflexivity.
  - inversion Hp as [|v' pre' [y Hy] Hrest]; subst.
    rewrite Hy. simpl. rewrite (IH post Hrest Hx). reflexivity.
Qed.

(** X17: [GET /conversations], with the dev environment configured, sends one GET
    for the conversations of the dev application. Of a 2xx answer with an
    object body it maps a [data] list of conversation objects item by item,
    in order, through the models; a missing or falsy [data] gives an empty
    list; one item that cannot be mapped (a [null], or an object the models
    refuse) fails the whole request with a 500, and so does a [data] member
    that is not a list. *)
Theorem get_conversations_responses
    (Message Conversation : jsval -> outcome jsval)
    (cfg : config) (up : upstream) (req : express_request) :
  configured cfg (VStr "dev") ->
  exists r,
    snd (get_conversations Message Conversation cfg up req) = [r]
    /\ req_method r = VStr "GET"
    /\ req_data r = VNull
    /\ req_url r = base_url ++ to_string (env_val (APP_ID_DEV cfg))
                   ++ "/conversations"
    /\ forall resp fields,
         answer up 0 r = Reply resp -> is_2xx resp = true ->
         Http.data resp = VObj fields ->
         let res := fst (get_conversations Message Conversation cfg up req) in
         (truthy (obj_get fields "data") = false ->
          res = mkRes 200 (VObj [("data", VArr [])]))
         /\ (forall items convs,
               obj_get fields "data" = VArr items ->
               Forall is_object items ->
               Forall2 (fun x y => to_conversation Message Conversation x
                                   = Return y) items convs ->
               res = mkRes 200 (VObj [("data", VArr convs)]))
         /\ (forall pre x post e,
               obj_get fields "data" = VArr (pre ++ x :: post) ->
               Forall is_object pre ->
               is_object x \/ x = VNull ->
               Forall (fun v => exists y,
                         to_conversation Message Conversation v = Return y) pre ->
               to_conversation Message Conversation x = Throw e ->
               response e = None ->
               res = plain_error (message e))
         /\ (forall d,
               obj_get fields "data" = d -> truthy d = true ->
               (forall items, d <> VArr items) ->
               res_status res = 500%Z).
Proof.
  intro C. unfold get_conversations.
  destruct (callTalkJSApi_by_answer cfg up 0 "/conversations"
              VUndefined VUndefined VUndefined C) as (tok & _ & E).
  rewrite E. eexists. split; [reflexivity|]. simpl.
  repeat (split; [reflexivity|]).
  intros resp fields Ha H2 Hd. rewrite Ha. simpl.
  rewrite H2, Hd. simpl. unfold js_or.
  split; [|split; [|split]].
  - intros ->. reflexivity.
  - intros items convs -> _ HF. simpl.
    rewrite (map_outcome_Forall2 _ items convs HF). reflexivity.
  - intros pre x post e -> _ _ HF Hx He. simpl.
    rewrite (map_outcome_throw _ x e pre post HF Hx). simpl.
    unfold plain_error, error_details, status_or, js_or, response_status,
      response_data. rewrite He. reflexivity.
  - intros d Hd' Ht Hn. rewrite Hd', Ht.
    destruct d; try reflexivity.
    exfalso. eapply Hn. reflexivity.
Qed.

Lemma get_conversations_responses_witness :
  fst (get_conversations tagging_message plain_model both_configured
         conversations_listed (mkReq [] [] []))
  = mkRes 200
      (VObj [("data",
              VArr [VObj [("id", VStr "c1");
                          ("lastMessage",
                           VObj [("message", VObj [("id", VStr "m1")])])];
                    VObj [("id", VStr "c2"); ("lastMessage", VNull)]])]).
Proof.
  destruct (get_conversations_responses tagging_message plain_model
              both_configured conversations_listed (mkReq [] [] []))
    as (r & Hs & _ & _ & _ & Hr); [solve_configured|].
  injection Hs as <-.
  refine (proj1 (proj2 (Hr _ _ eq_refl eq_refl eq_refl)) _ _ eq_refl _ _).
  - repeat constructor; eexists; reflexivity.
  - repeat constructor.
Defined.

(** X18: [GET /conversations/:conversationId], with the environment configured,
    sends one GET for that conversation. A 2xx answer whose body is not an
    object (nothing, [null], a number, a string, a boolean) is answered with
    a 404 and the invalid-data message; an object body is answered with
    [{data}] holding the conversation the models build from it; an error
    raised by the models is answered with a 500. *)
Theorem get_conversation_responses
    (Message Conversation : jsval -> outcome jsval)
    (cfg : config) (up : upstream) (req : express_request) :
  let conversationId := obj_get (params req) "conversationId" in
  let keyType := obj_get (query req) "keyType" in
  configured cfg keyType ->
  exists r,
    snd (get_conversation Message Conversation cfg up req) = [r]
    /\ req_method r = VStr "GET"
    /\ req_url r
       = base_url ++ to_string (appIdToUse cfg (default_param keyType (VStr "dev")))
         ++ "/conversations/" ++ to_string conversationId
    /\ forall resp,
         answer up 0 r = Reply resp -> is_2xx resp = true ->
         ((forall fields, Http.data resp <> VObj fields) ->
          (forall l, Http.data resp <> VArr l) ->
          fst (get_conversation Message Conversation cfg up req)
          = mkRes 404
              (VObj [("error",
                      VStr "Conversación no encontrada o datos inválidos.")]))
         /\ (forall fields conv,
               Http.data resp = VObj fields ->
               to_conversation Message Conversation (VObj fields) = Return conv ->
               truthy conv = true ->
               fst (get_conversation Message Conversation cfg up req)
               = mkRes 200 (VObj [("data", conv)]))
         /\ (forall fields e,
               Http.data resp = VObj fields ->
               to_conversation Message Conversation (VObj fields) = Throw e ->
               response e = None ->
               fst (get_conversation Message Conversation cfg up req)
               = plain_error (message e)).
Proof.
  intros conversationId keyType C. unfold get_conversation.
  fold conversationId keyType.
  destruct (callTalkJSApi_by_answer cfg up 0
              ("/conversations/" ++ to_string conversationId)
              (VStr "GET") keyType VUndefined C) as (tok & _ & E).
  rewrite E. eexists. split; [reflexivity|]. cbn [fst snd].
  split; [reflexivity|]. split; [reflexivity|].
  intros resp Ha H2. rewrite Ha. unfold call_result. rewrite H2.
  cbn [bind catching].
  split; [|split].
  - intros Ho Hl. destruct (Http.data resp) as [| |b|n|s|l|f]; cbn.
    + reflexivity.
    + reflexivity.
    + rewrite andb_false_r. reflexivity.
    + rewrite andb_false_r. reflexivity.
    + rewrite andb_false_r. reflexivity.
    + exfalso. eapply Hl. reflexivity.
    + exfalso. eapply Ho. reflexivity.
  - intros fields conv -> Hc Ht. cbn [truthy typeof_object andb].
    rewrite Hc. cbn [bind]. rewrite Ht. reflexivity.
  - intros fields e -> Hc He. cbn [truthy typeof_object andb].
    rewrite Hc. cbn [bind catching].
    unfold status_is_404, plain_error, error_details, response_status,
      response_data. rewrite He. reflexivity.
Qed.

Lemma get_conversation_responses_witness :
  fst (get_conversation tagging_message plain_model both_configured
         conversation_found conversation_request)
  = mkRes 200
      (VObj [("data",
              VObj [("id", VStr "c42"); ("subject", VStr "Hola");
                    ("lastMessage",
                     VObj [("message",
                            VObj [("id", VStr "m1"); ("text", VStr "hi")])])])]).
Proof.
  destruct (get_conversation_responses tagging_message plain_model
              both_configured conversation_found conversation_request)
    as (r & Hs & _ & _ & Hr); [solve_configured|].
  injection Hs as <-.
  refine (proj1 (proj2 (Hr _ eq_refl eq_refl)) _ _ eq_refl eq_refl eq_refl).
Defined.

(** X19: [GET /users] hides an upstream failure: when the first page request is
    answered with a status that is neither 2xx nor a redirect, or not at
    all, the route still answers 200, with an empty user list, after that
    single request. *)
Theorem get_users_masks_upstream_failure (cfg : config) (up : upstream)
    (req : express_request) (fuel : nat) :
  configured cfg (obj_get (query req) "keyType") ->
  (forall r, match answer up 0 r with
             | Reply resp => is_2xx resp = false /\ is_redirect resp = false
             | NoReply _ => True
             end) ->
  exists r,
    req_method r = VStr "GET"
    /\ get_users cfg up (S fuel) req
       = Some (mkRes 200 (VObj [("users", VArr [])]), [r]).
Proof.
  intros C Hdown. unfold get_users, fetchAllUsers.
  set (kt := default_param (js_or (obj_get (query req) "keyType") (VStr "dev"))
                           (VStr "dev")).
  assert (Hkt : configured cfg kt) by (apply configured_js_or; exact C).
  destruct (generateToken_configured cfg (clock up 0) kt Hkt) as [tok Ht].
  exists (users_request cfg kt limit VNull tok). split; [reflexivity|].
  cbn [while_morePages]. unfold loop_body, fetchUsersPage.
  cbn [sent startingAfter allUsers List.length].
  rewrite generateToken_default, Ht.
  fold (users_request cfg kt limit VNull tok). unfold axios.
  specialize (Hdown (users_request cfg kt limit VNull tok)).
  destruct (answer up 0 (users_request cfg kt limit VNull tok)) as [resp|msg].
  - destruct Hdown as [Hdown _]. unfold is_2xx in Hdown. rewrite Hdown.
    reflexivity.
  - reflexivity.
Qed.

Lemma get_users_masks_upstream_failure_witness :
  exists r,
    req_method r = VStr "GET"
    /\ get_users both_configured service_down 1 (mkReq [] [] [])
       = Some (mkRes 200 (VObj [("users", VArr [])]), [r]).
Proof.
  apply (get_users_masks_upstream_failure both_configured service_down
           (mkReq [] [] []) 0).
  - solve_configured.
  - intro r. destruct (answer service_down 0 r) eqn:A; [|exact I].
    simpl in A. injection A as <-. split; reflexivity.
Defined.
